(** * ListToolBar: layout composition of the table toolbar

    A shallow embedding of
    [packages/table/src/components/ListToolBar/index.tsx] and the
    properties of its layout-composition logic: which regions exist, what
    they contain and in which order.

    The component is a pure function of its props and of a few values it
    reads from hooks (prefix class, style hash, placeholder text, media
    query).  JavaScript values keep their run-time behaviour here: [||] and
    [&&] return one of their operands, conditions test truthiness, and a
    React child that is [null], [undefined] or a boolean renders nothing.
    [useMemo] only caches, so every memoised constant is the plain value of
    its body. *)

From Stdlib Require Import List String Ascii ZArith Bool Arith Lia DecimalString.
From Stdlib Require DecimalNat DecimalFacts Finite.
Import ListNotations.
Open Scope string_scope.
Open Scope list_scope.

Set Implicit Arguments.

(** ** JavaScript objects and React elements supplied by the caller *)

Module JS.

(** A plain object whose property values the toolbar never inspects. *)
Definition Obj := list (string * string).

Fixpoint get (k : string) (o : Obj) : option string :=
  match o with
  | [] => None
  | (k', v) :: o' => if String.eqb k k' then Some v else get k o'
  end.

Fixpoint remove (k : string) (o : Obj) : Obj :=
  match o with
  | [] => []
  | (k', v) :: o' =>
      if String.eqb k k' then remove k o' else (k', v) :: remove k o'
  end.

Definition set (k v : string) (o : Obj) : Obj := (k, v) :: remove k o.

(** [{...a, ...b}]: the properties of [b] win. *)
Definition spread (a b : Obj) : Obj :=
  fold_left (fun acc kv => set (fst kv) (snd kv) acc) b a.

(** [String(n)] for an array index. *)
Definition string_of_index (n : nat) : string :=
  NilZero.string_of_uint (Nat.to_uint n).

(** [xs.map((x, index) => f(x, index))]. *)
Fixpoint mapi_from {A B : Type} (i : nat) (f : A -> nat -> B) (xs : list A)
  : list B :=
  match xs with
  | [] => []
  | x :: xs' => f x i :: mapi_from (S i) f xs'
  end.

Definition mapi {A B : Type} (f : A -> nat -> B) (xs : list A) : list B :=
  mapi_from 0 f xs.

End JS.

Module React.

(** A React element built by the caller.  [createElement] moves the
    reserved property [key] out of the props, so [el_props] of an element
    made by it has no [key] entry. *)
Record Element := mkElement {
  el_type : string;
  el_key : option string;
  el_props : JS.Obj
}.

Definition createElement (type : string) (config : JS.Obj) : Element :=
  {| el_type := type;
     el_key := JS.get "key" config;
     el_props := JS.remove "key" config |}.

(** [React.cloneElement(element, config)]: a [key] in [config] replaces
    the element's own key; the other entries are merged into the props. *)
Definition cloneElement (element : Element) (config : JS.Obj) : Element :=
  {| el_type := el_type element;
     el_key := match JS.get "key" config with
               | Some k => Some k
               | None => el_key element
               end;
     el_props := JS.spread (el_props element) (JS.remove "key" config) |}.

(** [React.ReactNode] as a caller may supply it. *)
#[warnings="-register-all"]
Inductive Node :=
| NUndefined
| NNull
| NBool (b : bool)
| NNum (z : Z)
| NNaN
| NStr (s : string)
| NArray (items : list Node)
| NElement (e : Element).

Definition isValidElement (n : Node) : bool :=
  match n with
  | NElement _ => true
  | _ => false
  end.

(** JavaScript truthiness. *)
Definition node_truthy (n : Node) : bool :=
  match n with
  | NUndefined | NNull | NNaN => false
  | NBool b => b
  | NNum z => negb (z =? 0)%Z
  | NStr s => negb (String.eqb s "")
  | NArray _ | NElement _ => true
  end.

End React.

Import React.

(** ** Callbacks and the calls they receive *)

(** A caller-supplied function, known by name; calling it is recorded. *)
Definition Callback := string.

Inductive Arg :=
| ArgUndefined
| ArgStr (s : string)
| ArgOpaque (what : string).

Inductive Event :=
| Call (cb : Callback) (args : list Arg).

Definition Trace := list Event.

(** [cb?.(args)] as a step on the trace of calls made so far. *)
Definition optional_call (cb : option Callback) (args : list Arg) (t : Trace)
  : Trace :=
  match cb with
  | Some f => t ++ [Call f args]
  | None => t
  end.

(** ** Props *)

(** [LabelTooltipType]'s object form (antd): only ever forwarded. *)
Record WrapperTooltipProps := {
  tip_title : Node;
  tip_icon : Node
}.

(** [string | LabelTooltipType]. *)
Inductive TooltipType :=
| TipNode (n : Node)
| TipProps (p : WrapperTooltipProps).

Definition tooltip_truthy (t : TooltipType) : bool :=
  match t with
  | TipNode n => node_truthy n
  | TipProps _ => true
  end.

Record ListToolBarSetting := {
  icon : Node;
  setting_tooltip : TooltipType;
  setting_key : option string;
  onClick : option Callback
}.

(** [React.ReactNode | ListToolBarSetting]. *)
Inductive SettingPropType :=
| SettingNode (n : Node)
| SettingConfig (s : ListToolBarSetting).

(** antd's [SearchProps]: the submit callback, the two properties the
    toolbar gives defaults for, and the other properties in [sp_rest].  For
    [style] and [placeholder], [None] says that the object has no such
    property, [Some None] that it has it with the value [undefined], and
    [Some (Some s)] that it has it with the value [s]. *)
Record SearchProps := {
  sp_style : option (option string);
  sp_placeholder : option (option string);
  sp_onSearch : option Callback;
  sp_rest : JS.Obj
}.

(** [SearchProps | React.ReactNode | boolean]. *)
Inductive SearchPropType :=
| SearchNode (n : Node)
| SearchOptions (p : SearchProps).

(** A tab: its [key], its [tab] and, in [tab_rest], its other properties
    (with their values as strings). *)
Record TabPane := {
  tab_key : option string;
  tab : Node;
  tab_rest : JS.Obj
}.

Record ListToolBarTabs := {
  activeKey : option string;
  onChange : option Callback;
  items : option (list TabPane)
}.

(** Modelled from the spec: [ListToolBarHeaderMenuProps] is declared in
    [./HeaderMenu], which is not part of the sources at hand.  The spec only
    speaks of a "menu config" that is present or absent; the toolbar tests it
    for presence and forwards it, so its contents stay uninterpreted. *)
Record ListToolBarMenu := {
  menu_props : JS.Obj
}.

(** Optional fields are [None] (or [NUndefined]) when the caller leaves them
    out.  [actions] and [settings] follow their declared array types: the
    [Array.isArray] test of [actionDom] and the [?.] on [settings] only
    matter for a caller that bypasses the types. *)
Record ListToolBarProps := {
  customizePrefixCls : option string;
  className : option string;
  style : option string;
  title : Node;
  subTitle : Node;
  tooltip : TooltipType;
  search : SearchPropType;
  onSearch : option Callback;
  actions : option (list Node);
  settings : option (list SettingPropType);
  multipleLine : option bool;
  filter : Node;
  tabs : option ListToolBarTabs;
  menu : option ListToolBarMenu
}.

(** What the hooks return during one render. *)
Record Env := {
  getPrefixCls : string -> option string -> string;
  hashId : string;
  placeholder : string;
  colSize : string
}.

(** ** Values of the render computation and the element tree it builds *)

(** The closure given to [Input.Search] as [onSearch]; it captures the
    top-level [onSearch] and the options' own [onSearch]. *)
Record SearchHandler := {
  top_onSearch : option Callback;
  own_onSearch : option Callback
}.

(** The closure given to a setting's [span] as [onClick]. *)
Record ClickHandler := {
  click_onClick : option Callback;
  click_key : option string
}.

(** The value of a prop that the toolbar passes on. *)
Inductive PropValue :=
| PString (s : string)
| PNode (n : Node).

(** The props of the [Input.Search] element; [None] is [undefined]. *)
Record InputSearchProps := {
  is_style : option string;
  is_placeholder : option string;
  is_rest : list (string * PropValue);
  is_onSearch : SearchHandler
}.

Record SpaceProps := {
  space_className : option string;
  space_direction : option string;
  space_size : option Z;
  space_align : option string
}.

Record TabItem := {
  item_label : Node;
  item_source : TabPane;
  item_key : string
}.

(** Element types with the props the toolbar sets on them. *)
Inductive Tag :=
| Div (style : option string) (className : string)
| Span (onClick : ClickHandler)
| Space (p : SpaceProps)
| Tooltip (title : TooltipType)
| Fragment
| InputSearch (p : InputSearchProps)
| LabelIconTip (tooltip : TooltipType) (label subTitle : Node)
| HeaderMenu (menu : ListToolBarMenu) (prefixCls : string)
| TabsTabPane (item : TabPane) (tab : Node).

(** A value met while rendering: a primitive or a node, menu or tooltip
    object of the caller ([VNode], [VMenu], [VTip]), or an element the
    toolbar creates ([VElem], [VTabs]).
    [Tabs] has a constructor of its own because one of its props,
    [tabBarExtraContent], is itself part of the tree. *)
#[warnings="-register-all"]
Inductive Value :=
| VNode (n : Node)
| VMenu (m : ListToolBarMenu)
| VTip (p : WrapperTooltipProps)
| VElem (tag : Tag) (key : option string) (children : list Value)
| VTabs (activeKey : option string) (items : list TabItem)
        (onChange : option Callback) (tabBarExtraContent : Value)
        (children : list Value).

Definition null : Value := VNode NNull.
Definition undefined : Value := VNode NUndefined.

Definition of_tooltip (t : TooltipType) : Value :=
  match t with
  | TipNode n => VNode n
  | TipProps p => VTip p
  end.

Definition of_menu (m : option ListToolBarMenu) : Value :=
  match m with
  | Some m => VMenu m
  | None => undefined
  end.

Definition search_truthy (s : SearchPropType) : bool :=
  match s with
  | SearchNode n => node_truthy n
  | SearchOptions _ => true
  end.

Definition truthy (v : Value) : bool :=
  match v with
  | VNode n => node_truthy n
  | VMenu _ | VTip _ | VElem _ _ _ | VTabs _ _ _ _ _ => true
  end.

(** [a || b] and [a && b] return an operand, not a boolean. *)
Definition js_or (a b : Value) : Value := if truthy a then a else b.
Definition js_and (a b : Value) : Value := if truthy a then b else a.
Definition js_bool (b : bool) : Value := VNode (NBool b).

Notation "a '|||' b" := (js_or a b) (at level 50, left associativity).
Notation "a '&&&' b" := (js_and a b) (at level 40, left associativity).

(** [classNames(...)]: the non-empty arguments joined by one space. *)
Fixpoint classNames (cs : list string) : string :=
  match cs with
  | [] => ""
  | c :: cs' =>
      if String.eqb c "" then classNames cs'
      else match classNames cs' with
           | "" => c
           | rest => (c ++ " " ++ rest)%string
           end
  end.

(** ** The component *)

(** 获取配置区域 DOM Item: the DOM item of one setting. *)
Definition getSettingItem (setting : SettingPropType) : Value :=
  match setting with
  | SettingNode n =>
      if isValidElement n then VNode n
      else if node_truthy n then
        (* a truthy value that is no descriptor: every destructured field
           is undefined, so [icon && tooltip] fails and [icon] is returned *)
        undefined
      else null
  | SettingConfig settingConfig =>
      if node_truthy (icon settingConfig)
         && tooltip_truthy (setting_tooltip settingConfig)
      then
        VElem (Tooltip (setting_tooltip settingConfig)) None
          [VElem (Span {| click_onClick := onClick settingConfig;
                          click_key := setting_key settingConfig |})
                 (setting_key settingConfig)
                 [VNode (icon settingConfig)]]
      else VNode (icon settingConfig)
  end.

(** The body of the span's [onClick]: [if (onClick) onClick(key)]. *)
Definition fire_click (h : ClickHandler) (t : Trace) : Trace :=
  optional_call (click_onClick h)
    [match click_key h with Some k => ArgStr k | None => ArgUndefined end] t.

(** The body of the merged [onSearch]:
    [onSearch?.(restParams?.[0]); search.onSearch?.(...restParams)]. *)
Definition fire_search (h : SearchHandler) (restParams : list Arg) (t : Trace)
  : Trace :=
  let t1 := optional_call (top_onSearch h) [nth 0 restParams ArgUndefined] t in
  optional_call (own_onSearch h) restParams t1.

(** [item.key || index], as the string React and [Tabs] make of it. *)
Definition tab_item_key (item : TabPane) (index : nat) : string :=
  match tab_key item with
  | Some k => if String.eqb k "" then JS.string_of_index index else k
  | None => JS.string_of_index index
  end.

(** The [label] of [{ label: item.tab, ...item }]: a [label] that the item
    carries among its other properties replaces [item.tab]. *)
Definition tab_item_label (item : TabPane) : Node :=
  match JS.get "label" (tab_rest item) with
  | Some own => NStr own
  | None => tab item
  end.

(** [{ label: item.tab, ...item, key: item.key?.toString() || index?.toString() }] *)
Definition tab_item (item : TabPane) (index : nat) : TabItem :=
  {| item_label := tab_item_label item;
     item_source := item;
     item_key := tab_item_key item index |}.

(** [<Tabs.TabPane {...item} key={item.key || index} tab={item.tab} />] *)
Definition tab_pane (item : TabPane) (index : nat) : Value :=
  VElem (TabsTabPane item (tab item)) (Some (tab_item_key item index)) [].

Definition ListToolBarTabBar (prefixCls : string)
    (tabs : option ListToolBarTabs) (multipleLine : bool)
    (filtersNode : Value) : Value :=
  let tabs := match tabs with
              | Some t => t
              | None => {| activeKey := None; onChange := None; items := None |}
              end in
  if negb multipleLine then null
  else
    VElem (Div None (prefixCls ++ "-extra-line")%string) None
      [match items tabs with
       | Some ((_ :: _) as its) =>
           VTabs (activeKey tabs) (JS.mapi tab_item its) (onChange tabs)
                 filtersNode (JS.mapi tab_pane its)
       | _ => filtersNode
       end].

Section Render.

Variable env : Env.
Variable props : ListToolBarProps.

(** Destructuring defaults of the parameter list. *)
Definition multipleLine_ : bool :=
  match multipleLine props with Some b => b | None => false end.
Definition actions_ : list Node :=
  match actions props with Some l => l | None => [] end.
Definition settings_ : list SettingPropType :=
  match settings props with Some l => l | None => [] end.

Definition prefixCls : string :=
  getPrefixCls env "pro-table-list-toolbar" (customizePrefixCls props).

Definition isMobile : bool :=
  String.eqb (colSize env) "sm" || String.eqb (colSize env) "xs".

(** The template literal [`${prefixCls}-part ${hashId}`]. *)
Definition cls (part : string) : string :=
  (prefixCls ++ "-" ++ part ++ " " ++ hashId env)%string.

(** What [{...search}] copies from a search value that is no object: the
    characters of a string and the items of an array under their indices,
    nothing from a boolean or a number.  (Characters are those of the
    string as [string] holds it.) *)
Definition spread_search_node (n : Node) : list (string * PropValue) :=
  match n with
  | NStr s =>
      JS.mapi (fun ch index =>
                 (JS.string_of_index index, PString (String ch "")))
              (list_ascii_of_string s)
  | NArray items =>
      JS.mapi (fun item index => (JS.string_of_index index, PNode item)) items
  | _ => []
  end.

(** A property of [{ name: preset, ...search }]. *)
Definition spread_over (preset : string) (own : option (option string))
  : option string :=
  match own with
  | Some value => value
  | None => Some preset
  end.

(** 获取搜索栏 DOM: the search box. *)
Definition searchNode : Value :=
  if negb (search_truthy (search props)) then null
  else
    match search props with
    | SearchNode (NElement e) => VNode (NElement e)
    | SearchNode n =>
        VElem (InputSearch
                 {| is_style := Some "width: 200";
                    is_placeholder := Some (placeholder env);
                    is_rest := spread_search_node n;
                    is_onSearch := {| top_onSearch := onSearch props;
                                      own_onSearch := None |} |})
              None []
    | SearchOptions p =>
        VElem (InputSearch
                 {| is_style := spread_over "width: 200" (sp_style p);
                    is_placeholder :=
                      spread_over (placeholder env) (sp_placeholder p);
                    is_rest := map (fun kv => (fst kv, PString (snd kv)))
                                   (sp_rest p);
                    is_onSearch := {| top_onSearch := onSearch props;
                                      own_onSearch := sp_onSearch p |} |})
              None []
    end.

(** 轻量筛选组件: the light filter. *)
Definition filtersNode : Value :=
  if node_truthy (filter props)
  then VElem (Div None (cls "filter")) None [VNode (filter props)]
  else null.

(** 有没有 title，需要结合多个场景判断: whether there is a title depends
    on several fields. *)
Definition hasTitle : Value :=
  of_menu (menu props) ||| VNode (title props) ||| VNode (subTitle props)
  ||| of_tooltip (tooltip props).

(** One entry of [actions.map]: a fragment keyed by the index around a
    value that is no element, otherwise a clone made with the config
    [{ key: index, ...action.props }]. *)
Definition action_item (action : Node) (index : nat) : Value :=
  match action with
  | NElement e =>
      VNode (NElement
               (cloneElement e
                  (JS.spread [("key", JS.string_of_index index)]
                             (el_props e))))
  | _ => VElem Fragment (Some (JS.string_of_index index)) [VNode action]
  end.

(** 没有 key 的时候帮忙加一下 key 不加的话很烦人: add a key where there is
    none.  [actions_] is an array by its type, so the [Array.isArray] exit
    is not taken. *)
Definition actionDom : Value :=
  if (List.length actions_ <? 1)%nat then null
  else
    VElem (Space {| space_className := None; space_direction := None;
                    space_size := None; space_align := Some "center" |})
          None (JS.mapi action_item actions_).

(** [settings?.length] *)
Definition settings_length : Value :=
  VNode (NNum (Z.of_nat (List.length settings_))).

Definition hasRight : Value :=
  (hasTitle &&& searchNode)
  ||| (js_bool (negb multipleLine_) &&& filtersNode)
  ||| actionDom
  ||| settings_length.

Definition hasLeft : Value :=
  of_tooltip (tooltip props) ||| VNode (title props)
  ||| VNode (subTitle props) ||| of_menu (menu props)
  ||| (js_bool (negb (truthy hasTitle)) &&& searchNode).

Definition titleBlock : Value :=
  VElem (Div None (cls "title")) None
    [VElem (LabelIconTip (tooltip props) (title props) (subTitle props))
           None []].

Definition searchBox : Value :=
  VElem (Div None (cls "search")) None [searchNode].

Definition headerMenu (m : ListToolBarMenu) : Value :=
  VElem (HeaderMenu m prefixCls) None [].

(** The three children of the left [Space]. *)
Definition leftSpaceChildren : list Value :=
  [ hasTitle &&& js_bool (negb (truthy (of_menu (menu props))))
             &&& titleBlock;
    match menu props with
    | Some m => headerMenu m
    | None => undefined
    end;
    if truthy (js_bool (negb (truthy hasTitle)) &&& searchNode)
    then searchBox else null ].

Definition leftTitleDom : Value :=
  (* 保留dom是为了占位，不然 right 就变到左边了:
     keep an element in place, or the right region moves to the left *)
  if negb (truthy hasLeft) && truthy hasRight then
    VElem (Div None (cls "left")) None []
  (* 减少 space 的dom，渲染的时候能节省点性能: spare a Space *)
  else if negb (truthy (of_menu (menu props)))
          && (truthy hasTitle || negb (truthy searchNode)) then
    VElem (Div None (cls "left")) None [titleBlock]
  else
    VElem (Space {| space_className := Some (cls "left");
                    space_direction := None; space_size := None;
                    space_align := None |})
          None leftSpaceChildren.

Definition setting_slot (setting : SettingPropType) (index : nat) : Value :=
  let settingItem := getSettingItem setting in
  VElem (Div None (cls "setting-item")) (Some (JS.string_of_index index))
        [settingItem].

Definition settingItems : Value :=
  if truthy settings_length then
    VElem (Space {| space_className := Some (cls "setting-items");
                    space_direction := None; space_size := Some 12%Z;
                    space_align := Some "center" |})
          None (JS.mapi setting_slot settings_)
  else null.

(** The four children of the right [Space]. *)
Definition rightSpaceChildren : list Value :=
  [ if negb multipleLine_ then filtersNode else null;
    if truthy (hasTitle &&& searchNode) then searchBox else null;
    actionDom;
    settingItems ].

Definition rightTitleDom : Value :=
  if negb (truthy hasRight) then null
  else
    VElem (Space {| space_className := Some (cls "right");
                    space_direction :=
                      Some (if isMobile then "vertical" else "horizontal");
                    space_size := Some 8%Z;
                    space_align :=
                      Some (if isMobile then "end" else "center") |})
          None rightSpaceChildren.

Definition containerClassName : string :=
  classNames [ (prefixCls ++ "-container")%string; hashId env;
               if isMobile then (prefixCls ++ "-container-mobile")%string
               else "" ].

Definition titleNode : Value :=
  if negb (truthy hasRight) && negb (truthy hasLeft) then null
  else VElem (Div None containerClassName) None
             [leftTitleDom; rightTitleDom].

Definition tabBar : Value :=
  ListToolBarTabBar prefixCls (tabs props) multipleLine_ filtersNode.

(** The element handed to [wrapSSR].  The [ListToolBarTabBar] child is
    shown by what that component returns. *)
Definition ListToolBar : Value :=
  VElem (Div (style props)
             (classNames [ prefixCls; hashId env;
                           match className props with
                           | Some c => c
                           | None => ""
                           end ]))
        None [titleNode; tabBar].

End Render.

(** ** Observing the element tree *)

(** Everything [f] selects from the elements of a tree, in document order.
    Values passed in by the caller are opaque leaves. *)
Fixpoint collect {A : Type} (f : Tag -> list A) (v : Value) : list A :=
  match v with
  | VNode _ | VMenu _ | VTip _ => []
  | VElem tag _ children => f tag ++ flat_map (collect f) children
  | VTabs _ _ _ extra children =>
      collect f extra ++ flat_map (collect f) children
  end.

Definition divs_with (c : string) (tag : Tag) : list Tag :=
  match tag with
  | Div _ c' => if String.eqb c' c then [tag] else []
  | _ => []
  end.

(** How many [div]s of class [c] a tree holds. *)
Definition count_div (c : string) (v : Value) : nat :=
  List.length (collect (divs_with c) v).

(** The search box is the [div] of class [`${prefixCls}-search ${hashId}`];
    the filter area the one of class [`${prefixCls}-filter ${hashId}`]. *)
Definition count_search (env : Env) (props : ListToolBarProps) (v : Value)
  : nat :=
  count_div (cls env props "search") v.

Definition count_filter (env : Env) (props : ListToolBarProps) (v : Value)
  : nat :=
  count_div (cls env props "filter") v.

(** The submit handlers of the [Input.Search] elements of a tree. *)
Definition input_handler (tag : Tag) : list SearchHandler :=
  match tag with
  | InputSearch p => [is_onSearch p]
  | _ => []
  end.

Definition search_handlers (v : Value) : list SearchHandler :=
  collect input_handler v.

(** The user submits [restParams] in every search input of the tree. *)
Definition submit (v : Value) (restParams : list Arg) (t : Trace) : Trace :=
  fold_left (fun t h => fire_search h restParams t) (search_handlers v) t.

Definition is_element (v : Value) : bool :=
  match v with
  | VNode (NElement _) | VElem _ _ _ | VTabs _ _ _ _ _ => true
  | _ => false
  end.

(** The children that are elements; [false], [null], [undefined] and stray
    text are left out. *)
Definition elements (children : list Value) : list Value :=
  List.filter is_element children.

(** React puts nothing in the document for [null], [undefined], booleans,
    the empty string, and arrays or fragments of such. *)
Fixpoint node_renders_nothing (n : Node) : bool :=
  match n with
  | NUndefined | NNull | NBool _ => true
  | NStr s => String.eqb s ""
  | NArray l => forallb node_renders_nothing l
  | NNum _ | NNaN | NElement _ => false
  end.

Fixpoint renders_nothing (v : Value) : bool :=
  match v with
  | VNode n => node_renders_nothing n
  | VElem Fragment _ children => forallb renders_nothing children
  | _ => false
  end.

(** The React key of an element. *)
Definition key_of (v : Value) : option string :=
  match v with
  | VNode (NElement e) => el_key e
  | VElem _ k _ => k
  | _ => None
  end.

(** A search prop that is an options object, or [true] standing for the
    empty options object. *)
Definition search_options (s : SearchPropType) : option SearchProps :=
  match s with
  | SearchOptions p => Some p
  | SearchNode (NBool true) =>
      Some {| sp_style := None; sp_placeholder := None; sp_onSearch := None;
              sp_rest := [] |}
  | _ => None
  end.

Definition falsy_setting (s : SettingPropType) : bool :=
  match s with
  | SettingNode n => negb (node_truthy n)
  | SettingConfig _ => false
  end.

(** The props of a caller who supplies nothing. *)
Definition no_props : ListToolBarProps :=
  {| customizePrefixCls := None; className := None; style := None;
     title := NUndefined; subTitle := NUndefined;
     tooltip := TipNode NUndefined; search := SearchNode NUndefined;
     onSearch := None; actions := None; settings := None;
     multipleLine := None; filter := NUndefined; tabs := None;
     menu := None |}.

(** A hook environment as antd provides it on a wide screen. *)
Definition antd_env : Env :=
  {| getPrefixCls := fun suffix custom =>
       match custom with
       | Some c => c
       | None => ("ant-" ++ suffix)%string
       end;
     hashId := "css-var";
     placeholder := "Please enter";
     colSize := "lg" |}.

(** ** The presence flags as the specification words them

    A field is present when the caller supplied a truthy value for it;
    search resolves to content when [searchNode] is not [null]. *)

Definition present (n : Node) : bool := node_truthy n.

Definition menu_present (props : ListToolBarProps) : bool :=
  match menu props with
  | Some _ => true
  | None => false
  end.

Definition search_resolved (env : Env) (props : ListToolBarProps) : bool :=
  truthy (searchNode env props).

Definition non_empty {A : Type} (l : list A) : bool :=
  match l with
  | [] => false
  | _ :: _ => true
  end.

Definition hasTitle_spec (props : ListToolBarProps) : bool :=
  menu_present props || present (title props) || present (subTitle props)
  || tooltip_truthy (tooltip props).

Definition hasLeft_spec (env : Env) (props : ListToolBarProps) : bool :=
  tooltip_truthy (tooltip props) || present (title props)
  || present (subTitle props) || menu_present props
  || (negb (hasTitle_spec props) && search_resolved env props).

Definition hasRight_spec (env : Env) (props : ListToolBarProps) : bool :=
  (hasTitle_spec props && search_resolved env props)
  || (negb (multipleLine_ props) && present (filter props))
  || non_empty (actions_ props)
  || non_empty (settings_ props).

(** ** Sample configurations *)

(** [{ title: "Users", search: true, onSearch: top }] *)
Definition titled_search : ListToolBarProps :=
  {| customizePrefixCls := None; className := None; style := None;
     title := NStr "Users"; subTitle := NUndefined;
     tooltip := TipNode NUndefined; search := SearchNode (NBool true);
     onSearch := Some "top"; actions := None; settings := None;
     multipleLine := None; filter := NUndefined; tabs := None;
     menu := None |}.

(** [{ search: { onSearch: own }, onSearch: top }] *)
Definition bare_search : ListToolBarProps :=
  {| customizePrefixCls := None; className := None; style := None;
     title := NUndefined; subTitle := NUndefined;
     tooltip := TipNode NUndefined;
     search := SearchOptions {| sp_style := None; sp_placeholder := None;
                                sp_onSearch := Some "own"; sp_rest := [] |};
     onSearch := Some "top"; actions := None; settings := None;
     multipleLine := None; filter := NUndefined; tabs := None;
     menu := None |}.

(** [{ subTitle: "All users", search: true }]: no title and no menu. *)
Definition subtitled_search : ListToolBarProps :=
  {| customizePrefixCls := None; className := None; style := None;
     title := NUndefined; subTitle := NStr "All users";
     tooltip := TipNode NUndefined; search := SearchNode (NBool true);
     onSearch := None; actions := None; settings := None;
     multipleLine := None; filter := NUndefined; tabs := None;
     menu := None |}.

(** [{ menu: {...}, search: true }] *)
Definition menu_search : ListToolBarProps :=
  {| customizePrefixCls := None; className := None; style := None;
     title := NUndefined; subTitle := NUndefined;
     tooltip := TipNode NUndefined; search := SearchNode (NBool true);
     onSearch := None; actions := None; settings := None;
     multipleLine := None; filter := NUndefined; tabs := None;
     menu := Some {| menu_props := [("type", "tab")] |} |}.

(** [{ tooltip: 0, search: true }]: a falsy tooltip that is not nullish. *)
Definition zero_tooltip_search : ListToolBarProps :=
  {| customizePrefixCls := None; className := None; style := None;
     title := NUndefined; subTitle := NUndefined;
     tooltip := TipNode (NNum 0); search := SearchNode (NBool true);
     onSearch := None; actions := None; settings := None;
     multipleLine := None; filter := NUndefined; tabs := None;
     menu := None |}.

(** [{ settings: [null] }] *)
Definition null_setting : ListToolBarProps :=
  {| customizePrefixCls := None; className := None; style := None;
     title := NUndefined; subTitle := NUndefined;
     tooltip := TipNode NUndefined; search := SearchNode NUndefined;
     onSearch := None; actions := None; settings := Some [SettingNode NNull];
     multipleLine := None; filter := NUndefined; tabs := None;
     menu := None |}.

(** [{ actions: [<Button key="save" type="primary" />] }] *)
Definition save_button : Element :=
  createElement "Button" [("key", "save"); ("type", "primary")].

Definition keyed_action : ListToolBarProps :=
  {| customizePrefixCls := None; className := None; style := None;
     title := NUndefined; subTitle := NUndefined;
     tooltip := TipNode NUndefined; search := SearchNode NUndefined;
     onSearch := None; actions := Some [NElement save_button];
     settings := None;
     multipleLine := None; filter := NUndefined; tabs := None;
     menu := None |}.

(** A filter element [F] with two tabs, on one line or on two. *)
Definition filter_F : Node := NElement (createElement "LightFilter" []).

Definition two_tabs : ListToolBarTabs :=
  {| activeKey := None; onChange := None;
     items := Some [ {| tab_key := Some "a"; tab := NStr "A"; tab_rest := [] |};
                     {| tab_key := Some "b"; tab := NStr "B"; tab_rest := [] |} ]
  |}.

Definition filter_config (multi : option bool) (t : option ListToolBarTabs)
  : ListToolBarProps :=
  {| customizePrefixCls := None; className := None; style := None;
     title := NUndefined; subTitle := NUndefined;
     tooltip := TipNode NUndefined; search := SearchNode NUndefined;
     onSearch := None; actions := None; settings := None;
     multipleLine := multi; filter := filter_F; tabs := t;
     menu := None |}.

(** A setting descriptor [{ icon: <Gear />, tooltip: "Density", key: "d",
    onClick: pick }]. *)
Definition gear : Node := NElement (createElement "Gear" []).

Definition gear_setting : ListToolBarSetting :=
  {| icon := gear; setting_tooltip := TipNode (NStr "Density");
     setting_key := Some "d"; onClick := Some "pick" |}.

(** ** Vocabulary of the properties *)

(** Every field that could bring content is absent (class name, style and
    callbacks bring none). *)
Definition all_absent (props : ListToolBarProps) : bool :=
  negb (hasTitle_spec props)
  && negb (search_truthy (search props))
  && negb (present (filter props))
  && negb (non_empty (actions_ props))
  && negb (non_empty (settings_ props))
  && negb (multipleLine_ props).

(** A descriptor field that was left out, or set to [null]. *)
Definition missing (n : Node) : bool :=
  match n with
  | NUndefined | NNull => true
  | _ => false
  end.

(** [tabs.items], empty when [tabs] or [items] is absent. *)
Definition tab_items (props : ListToolBarProps) : list TabPane :=
  match tabs props with
  | Some t => match items t with
              | Some l => l
              | None => []
              end
  | None => []
  end.

Definition tabs_activeKey (props : ListToolBarProps) : option string :=
  match tabs props with Some t => activeKey t | None => None end.

Definition tabs_onChange (props : ListToolBarProps) : option Callback :=
  match tabs props with Some t => onChange t | None => None end.

(** The props of the two [Space]s that make a region. *)
Definition leftSpace (env : Env) (props : ListToolBarProps) : Tag :=
  Space {| space_className := Some (cls env props "left");
           space_direction := None; space_size := None;
           space_align := None |}.

Definition rightSpace (env : Env) (props : ListToolBarProps) : Tag :=
  Space {| space_className := Some (cls env props "right");
           space_direction :=
             Some (if isMobile env then "vertical" else "horizontal");
           space_size := Some 8%Z;
           space_align := Some (if isMobile env then "end" else "center") |}.

Definition settingSpace (env : Env) (props : ListToolBarProps) : Tag :=
  Space {| space_className := Some (cls env props "setting-items");
           space_direction := None; space_size := Some 12%Z;
           space_align := Some "center" |}.

(** The setting-item slot of a setting that resolves to nothing. *)
Definition empty_slot (env : Env) (props : ListToolBarProps)
    (_ : SettingPropType) (index : nat) : Value :=
  VElem (Div None (cls env props "setting-item"))
        (Some (JS.string_of_index index)) [null].

(** The argument a setting's [onClick] receives: its [key]. *)
Definition key_arg (s : ListToolBarSetting) : Arg :=
  match setting_key s with
  | Some k => ArgStr k
  | None => ArgUndefined
  end.

Definition children_of (v : Value) : list Value :=
  match v with
  | VElem _ _ children | VTabs _ _ _ _ children => children
  | _ => []
  end.

(** The toolbar is observably empty when its root wrapper, which is always
    returned, has no rendered content. *)
Definition observably_empty (env : Env) (props : ListToolBarProps) : bool :=
  forallb renders_nothing (children_of (ListToolBar env props)).

(** ** Vocabulary of the further properties *)

(** Some input brings content to the title container. *)
Definition any_content (props : ListToolBarProps) : bool :=
  hasTitle_spec props
  || search_truthy (search props)
  || (negb (multipleLine_ props) && present (filter props))
  || non_empty (actions_ props)
  || non_empty (settings_ props).

(** The title block is the [div] of class [`${prefixCls}-title ${hashId}`]. *)
Definition count_title (env : Env) (props : ListToolBarProps) (v : Value)
  : nat :=
  count_div (cls env props "title") v.

Definition header_menu_of (tag : Tag) : list ListToolBarMenu :=
  match tag with
  | HeaderMenu m _ => [m]
  | _ => []
  end.

(** The menus shown by the [HeaderMenu] elements of a tree. *)
Definition header_menus (v : Value) : list ListToolBarMenu :=
  collect header_menu_of v.

Definition span_handler (tag : Tag) : list ClickHandler :=
  match tag with
  | Span h => [h]
  | _ => []
  end.

(** The click handlers of the [span]s of a tree. *)
Definition click_handlers (v : Value) : list ClickHandler :=
  collect span_handler v.

(** The click handler [getSettingItem] attaches for a setting, if any. *)
Definition wired (s : SettingPropType) : list ClickHandler :=
  match s with
  | SettingConfig c =>
      if node_truthy (icon c) && tooltip_truthy (setting_tooltip c)
      then [{| click_onClick := onClick c; click_key := setting_key c |}]
      else []
  | SettingNode _ => []
  end.

(** The keys ["0"], ["1"], ... of [n] siblings keyed by position. *)
Definition index_keys (n : nat) : list (option string) :=
  map (fun i => Some (JS.string_of_index i)) (seq 0 n).

(** The props object of a React element: no name twice, and no [key]. *)
Definition props_well_formed (e : Element) : Prop :=
  NoDup (map fst (el_props e)) /\ ~ In "key" (map fst (el_props e)).

(** [React.isValidElement(search)] *)
Definition search_is_element (s : SearchPropType) : bool :=
  match s with
  | SearchNode n => isValidElement n
  | SearchOptions _ => false
  end.

(** The key a tab was given, if it is usable. *)
Definition own_tab_key (item : TabPane) : option string :=
  match tab_key item with
  | Some k => if String.eqb k "" then None else Some k
  | None => None
  end.





(** [{ search: <MySearch />, onSearch: top }] *)
Definition my_search : Node := NElement (createElement "MySearch" []).

Definition element_search : ListToolBarProps :=
  {| customizePrefixCls := None; className := None; style := None;
     title := NUndefined; subTitle := NUndefined;
     tooltip := TipNode NUndefined; search := SearchNode my_search;
     onSearch := Some "top"; actions := None; settings := None;
     multipleLine := None; filter := NUndefined; tabs := None;
     menu := None |}.

(** [{ settings: [{ icon, tooltip, key: "d", onClick: pick },
                  { icon, onClick: lost }, "text"] }] *)
Definition three_settings : ListToolBarProps :=
  {| customizePrefixCls := None; className := None; style := None;
     title := NUndefined; subTitle := NUndefined;
     tooltip := TipNode NUndefined; search := SearchNode NUndefined;
     onSearch := None; actions := None;
     settings := Some [ SettingConfig gear_setting;
                        SettingConfig {| icon := gear;
                                         setting_tooltip := TipNode NUndefined;
                                         setting_key := None;
                                         onClick := Some "lost" |};
                        SettingNode (NStr "text") ];
     multipleLine := None; filter := NUndefined; tabs := None;
     menu := None |}.

(** An object without the properties named in [ks]. *)
Definition without (ks : list string) (o : JS.Obj) : JS.Obj :=
  List.filter (fun kv => negb (existsb (String.eqb (fst kv)) ks)) o.

(** Three tabs without keys. *)
Definition unkeyed_tabs : list TabPane :=
  [ {| tab_key := None; tab := NStr "A"; tab_rest := [] |};
    {| tab_key := Some ""; tab := NStr "B"; tab_rest := [] |};
    {| tab_key := None; tab := NStr "C"; tab_rest := [] |} ].

(** [[{ key: "a", tab: "A", label: "Alpha" }, { tab: "B" }]] *)
Definition labelled_tabs : list TabPane :=
  [ {| tab_key := Some "a"; tab := NStr "A";
       tab_rest := [("label", "Alpha")] |};
    {| tab_key := None; tab := NStr "B"; tab_rest := [] |} ].

Definition keyed_tabs : list TabPane :=
  match items two_tabs with
  | Some l => l
  | None => []
  end.

(** [{ search: { onSearch: own } }] with no top-level [onSearch]. *)
Definition options_only_search : ListToolBarProps :=
  {| customizePrefixCls := None; className := None; style := None;
     title := NStr "Users"; subTitle := NUndefined;
     tooltip := TipNode NUndefined;
     search := SearchOptions {| sp_style := None; sp_placeholder := None;
                                sp_onSearch := Some "own"; sp_rest := [] |};
     onSearch := None; actions := None; settings := None;
     multipleLine := None; filter := NUndefined; tabs := None;
     menu := None |}.

(** * Properties *)

(** ** Truthiness of the JavaScript connectives *)

Lemma truthy_or (a b : Value) : truthy (a ||| b) = truthy a || truthy b.
Proof.
  unfold js_or. destruct (truthy a) eqn:Ha; simpl; [exact Ha | reflexivity].
Qed.

Lemma truthy_and (a b : Value) : truthy (a &&& b) = truthy a && truthy b.
Proof.
  unfold js_and. destruct (truthy a) eqn:Ha; simpl; [reflexivity | exact Ha].
Qed.

Lemma truthy_of_tooltip (t : TooltipType) :
  truthy (of_tooltip t) = tooltip_truthy t.
Proof. destruct t; reflexivity. Qed.

Lemma falsy_is_node (v : Value) :
  truthy v = false -> exists n, v = VNode n /\ node_truthy n = false.
Proof.
  destruct v; simpl; intros H; try discriminate. eauto.
Qed.

Lemma collect_falsy {A : Type} (f : Tag -> list A) (v : Value) :
  truthy v = false -> collect f v = [].
Proof.
  intros H. destruct (falsy_is_node v H) as [n [-> _]]. reflexivity.
Qed.

Lemma truthy_js_bool (b : bool) : truthy (js_bool b) = b.
Proof. reflexivity. Qed.

Create Rewrite HintDb flags.
#[local] Hint Rewrite truthy_or truthy_and truthy_of_tooltip truthy_js_bool
  : flags.

(** ** Class names *)

Lemma eqb_append_prefix (p a b : string) :
  String.eqb (p ++ a) (p ++ b) = String.eqb a b.
Proof.
  induction p as [|ch p IH]; simpl; [reflexivity|].
  rewrite Ascii.eqb_refl. exact IH.
Qed.

Lemma append_assoc (a b c : string) :
  ((a ++ b) ++ c = a ++ (b ++ c))%string.
Proof.
  induction a as [|ch a IH]; simpl; [reflexivity | now rewrite IH].
Qed.

Lemma cls_eqb (env : Env) (props : ListToolBarProps) (a b : string) :
  String.eqb (cls env props a) (cls env props b)
  = String.eqb ("-" ++ a ++ " " ++ hashId env) ("-" ++ b ++ " " ++ hashId env).
Proof. unfold cls. apply eqb_append_prefix. Qed.

(** [classNames] keeps a non-empty first class at the front. *)
Lemma classNames_head (c : string) (cs : list string) :
  c <> "" -> exists rest, classNames (c :: cs) = (c ++ rest)%string.
Proof.
  intros Hc. simpl. destruct (String.eqb_spec c "") as [E|_]; [contradiction|].
  destruct (classNames cs) as [|ch r].
  - exists "". clear. induction c; simpl; congruence.
  - now exists (" " ++ String ch r)%string.
Qed.

Lemma container_not_part (env : Env) (props : ListToolBarProps) (part : string) :
  (forall rest, String.eqb ("-container" ++ rest)
                           ("-" ++ part ++ " " ++ hashId env) = false) ->
  String.eqb (containerClassName env props) (cls env props part) = false.
Proof.
  intros H. unfold containerClassName.
  destruct (classNames_head (c := (prefixCls env props ++ "-container")%string)
              [hashId env;
               if isMobile env
               then (prefixCls env props ++ "-container-mobile")%string
               else ""]) as [rest ->].
  - destruct (prefixCls env props); discriminate.
  - unfold cls. rewrite append_assoc, eqb_append_prefix. apply H.
Qed.

(** ** The presence flags *)

Lemma truthy_of_menu (props : ListToolBarProps) :
  truthy (of_menu (menu props)) = menu_present props.
Proof. unfold menu_present. destruct (menu props); reflexivity. Qed.

Lemma truthy_filtersNode (env : Env) (props : ListToolBarProps) :
  truthy (filtersNode env props) = present (filter props).
Proof.
  unfold filtersNode, present. destruct (node_truthy (filter props)); reflexivity.
Qed.

Lemma truthy_actionDom (props : ListToolBarProps) :
  truthy (actionDom props) = non_empty (actions_ props).
Proof. unfold actionDom. destruct (actions_ props); reflexivity. Qed.

Lemma truthy_settings_length (props : ListToolBarProps) :
  truthy (settings_length props) = non_empty (settings_ props).
Proof. unfold settings_length. destruct (settings_ props); reflexivity. Qed.

Lemma truthy_searchNode (env : Env) (props : ListToolBarProps) :
  truthy (searchNode env props) = search_truthy (search props).
Proof.
  unfold searchNode. destruct (search props) as [n|p]; simpl; [|reflexivity].
  destruct (node_truthy n) eqn:Hn; simpl; [|reflexivity].
  destruct n; reflexivity.
Qed.

Lemma truthy_hasTitle (props : ListToolBarProps) :
  truthy (hasTitle props) = hasTitle_spec props.
Proof.
  unfold hasTitle, hasTitle_spec, present.
  autorewrite with flags. now rewrite truthy_of_menu.
Qed.

Lemma truthy_hasLeft (env : Env) (props : ListToolBarProps) :
  truthy (hasLeft env props) = hasLeft_spec env props.
Proof.
  unfold hasLeft, hasLeft_spec, present, search_resolved.
  autorewrite with flags. now rewrite truthy_of_menu, truthy_hasTitle.
Qed.

Lemma truthy_hasRight (env : Env) (props : ListToolBarProps) :
  truthy (hasRight env props) = hasRight_spec env props.
Proof.
  unfold hasRight, hasRight_spec, search_resolved.
  autorewrite with flags.
  now rewrite truthy_hasTitle, truthy_filtersNode, truthy_actionDom,
    truthy_settings_length.
Qed.

(** C2. The three presence flags are truthy exactly when the
    specification's formulas hold: [hasTitle] iff one of menu, title,
    subtitle, tooltip is present; [hasLeft] iff one of tooltip, title,
    subtitle, menu is present or [hasTitle] fails and search resolves to
    content; [hasRight] iff [hasTitle] holds and search resolves, or the
    toolbar is single-line and a filter is present, or the action list or
    the settings list is non-empty. *)
Theorem presence_flags (env : Env) (props : ListToolBarProps) :
  truthy (hasTitle props) = hasTitle_spec props
  /\ truthy (hasLeft env props) = hasLeft_spec env props
  /\ truthy (hasRight env props) = hasRight_spec env props.
Proof.
  split; [apply truthy_hasTitle|].
  split; [apply truthy_hasLeft | apply truthy_hasRight].
Qed.

(** ** What a selection finds in each region

    The lemmas of this section hold for every selection [f] that looks at
    [div]s and search inputs only; they reduce what [f] finds in a region to
    what it finds in the search box and in the filter area. *)

Section Regions.

Variable A : Type.
Variable f : Tag -> list A.
Variable env : Env.
Variable props : ListToolBarProps.

Hypothesis f_Space : forall p, f (Space p) = [].
Hypothesis f_Fragment : f Fragment = [].
Hypothesis f_Tooltip : forall t, f (Tooltip t) = [].
Hypothesis f_Span : forall h, f (Span h) = [].
Hypothesis f_LabelIconTip : forall t l s, f (LabelIconTip t l s) = [].
Hypothesis f_HeaderMenu : forall m p, f (HeaderMenu m p) = [].
Hypothesis f_left : f (Div None (cls env props "left")) = [].
Hypothesis f_TabsTabPane : forall i t, f (TabsTabPane i t) = [].
Hypothesis f_title : f (Div None (cls env props "title")) = [].
Hypothesis f_setting_item :
  f (Div None (cls env props "setting-item")) = [].
Hypothesis f_container : f (Div None (containerClassName env props)) = [].
Hypothesis f_extra_line :
  f (Div None (prefixCls env props ++ "-extra-line")%string) = [].

Lemma collect_action_items (l : list Node) (i : nat) :
  flat_map (collect f) (JS.mapi_from i action_item l) = [].
Proof.
  revert i. induction l as [|a l IH]; intros i; simpl; [reflexivity|].
  rewrite IH. destruct a; simpl; rewrite ?f_Fragment; reflexivity.
Qed.

Lemma collect_actionDom : collect f (actionDom props) = [].
Proof.
  unfold actionDom. destruct (List.length (actions_ props) <? 1)%nat;
    simpl; [reflexivity|].
  rewrite f_Space. apply collect_action_items.
Qed.

Lemma collect_getSettingItem (s : SettingPropType) :
  collect f (getSettingItem s) = [].
Proof.
  destruct s as [n|s]; simpl.
  - destruct (isValidElement n), (node_truthy n); reflexivity.
  - destruct (node_truthy (icon s) && tooltip_truthy (setting_tooltip s));
      simpl; [|reflexivity].
    now rewrite f_Tooltip, f_Span.
Qed.

Lemma collect_setting_slots (l : list SettingPropType) (i : nat) :
  flat_map (collect f) (JS.mapi_from i (setting_slot env props) l) = [].
Proof.
  revert i. induction l as [|s l IH]; intros i; simpl; [reflexivity|].
  now rewrite IH, f_setting_item, collect_getSettingItem.
Qed.

Lemma collect_settingItems : collect f (settingItems env props) = [].
Proof.
  unfold settingItems. destruct (truthy (settings_length props));
    simpl; [|reflexivity].
  rewrite f_Space. apply collect_setting_slots.
Qed.

Lemma collect_titleBlock : collect f (titleBlock env props) = [].
Proof. simpl. now rewrite f_title, f_LabelIconTip. Qed.

(** The left region holds the search box when [hasTitle] fails and search
    resolves, and nothing else that [f] could select. *)
Lemma collect_leftTitleDom :
  collect f (leftTitleDom env props)
  = if negb (truthy (hasTitle props)) && truthy (searchNode env props)
    then collect f (searchBox env props) else [].
Proof.
  unfold leftTitleDom.
  destruct (negb (truthy (hasLeft env props)) && truthy (hasRight env props))
    eqn:Hplace.
  - apply andb_prop in Hplace as [Hl _]. apply negb_true_iff in Hl.
    rewrite truthy_hasLeft in Hl. unfold hasLeft_spec in Hl.
    apply orb_false_iff in Hl as [_ Hl].
    unfold search_resolved in Hl. rewrite <- truthy_hasTitle in Hl.
    rewrite Hl. simpl. now rewrite f_left.
  - destruct (negb (truthy (of_menu (menu props)))
              && (truthy (hasTitle props)
                  || negb (truthy (searchNode env props)))) eqn:Hlight.
    + apply andb_prop in Hlight as [_ Hlight].
      replace (negb (truthy (hasTitle props))
               && truthy (searchNode env props)) with false
        by (destruct (truthy (hasTitle props)),
              (truthy (searchNode env props)); easy).
      cbn [collect flat_map]. now rewrite f_left, collect_titleBlock.
    + cbn [collect flat_map leftSpaceChildren]. rewrite f_Space.
      autorewrite with flags.
      assert (Hfirst :
        collect f (hasTitle props
                   &&& js_bool (negb (truthy (of_menu (menu props))))
                   &&& titleBlock env props) = []).
      { unfold js_and at 1.
        destruct (truthy (hasTitle props
          &&& js_bool (negb (truthy (of_menu (menu props)))))) eqn:E.
        - apply collect_titleBlock.
        - now apply collect_falsy. }
      rewrite Hfirst.
      assert (Hmenu : collect f (match menu props with
                                 | Some m => headerMenu env props m
                                 | None => undefined
                                 end) = []).
      { destruct (menu props); simpl; [now rewrite f_HeaderMenu|reflexivity]. }
      rewrite Hmenu.
      destruct (negb (truthy (hasTitle props))
                && truthy (searchNode env props));
        simpl; now rewrite ?app_nil_r.
Qed.

(** The right region holds the filter area in single-line mode and the
    search box when [hasTitle] holds and search resolves, and nothing else
    that [f] could select. *)
Lemma collect_rightTitleDom :
  collect f (rightTitleDom env props)
  = if truthy (hasRight env props)
    then (if negb (multipleLine_ props)
          then collect f (filtersNode env props) else [])
         ++ (if truthy (hasTitle props) && truthy (searchNode env props)
             then collect f (searchBox env props) else [])
    else [].
Proof.
  unfold rightTitleDom. destruct (truthy (hasRight env props));
    simpl; [|reflexivity].
  rewrite f_Space, collect_actionDom, collect_settingItems, !app_nil_r.
  autorewrite with flags.
  destruct (negb (multipleLine_ props)),
    (truthy (hasTitle props) && truthy (searchNode env props));
    simpl; now rewrite ?app_nil_r.
Qed.

Lemma collect_titleNode :
  collect f (titleNode env props)
  = collect f (leftTitleDom env props) ++ collect f (rightTitleDom env props).
Proof.
  unfold titleNode.
  destruct (negb (truthy (hasRight env props))
            && negb (truthy (hasLeft env props))) eqn:Hnone.
  - apply andb_prop in Hnone as [Hr Hl].
    apply negb_true_iff in Hr, Hl.
    rewrite collect_leftTitleDom, collect_rightTitleDom, Hr.
    rewrite truthy_hasLeft in Hl. unfold hasLeft_spec in Hl.
    apply orb_false_iff in Hl as [_ Hl].
    unfold search_resolved in Hl. rewrite <- truthy_hasTitle in Hl.
    now rewrite Hl.
  - simpl. now rewrite f_container, app_nil_r.
Qed.

Lemma collect_tab_panes (l : list TabPane) (i : nat) :
  flat_map (collect f) (JS.mapi_from i tab_pane l) = [].
Proof.
  revert i. induction l as [|a l IH]; intros i; simpl; [reflexivity|].
  now rewrite IH, f_TabsTabPane.
Qed.

(** The secondary line holds the filter area in multi-line mode, and
    nothing else that [f] could select. *)
Lemma collect_tabBar :
  collect f (tabBar env props)
  = if multipleLine_ props then collect f (filtersNode env props) else [].
Proof.
  unfold tabBar, ListToolBarTabBar.
  destruct (multipleLine_ props); simpl; [|reflexivity].
  rewrite f_extra_line, app_nil_r. simpl.
  destruct (tabs props) as [t|]; simpl; [|reflexivity].
  destruct (items t) as [[|it its]|]; try reflexivity.
  cbn [collect]. unfold JS.mapi. now rewrite collect_tab_panes, app_nil_r.
Qed.

End Regions.

(** ** Where the search box goes *)

(** A [div] of one toolbar class is not selected under another. *)
Ltac other_class :=
  unfold divs_with;
  first
    [ rewrite cls_eqb; reflexivity
    | rewrite container_not_part; [reflexivity | intros; reflexivity]
    | unfold cls; rewrite eqb_append_prefix; reflexivity ].

Lemma collect_div_searchNode (c : string) (env : Env)
    (props : ListToolBarProps) :
  collect (divs_with c) (searchNode env props) = [].
Proof.
  unfold searchNode. destruct (negb (search_truthy (search props)));
    [reflexivity|].
  destruct (search props) as [[]|]; reflexivity.
Qed.

Lemma count_search_searchBox (env : Env) (props : ListToolBarProps) :
  count_search env props (searchBox env props) = 1.
Proof.
  unfold count_search, count_div, searchBox. cbn [collect flat_map divs_with].
  now rewrite String.eqb_refl, collect_div_searchNode.
Qed.

Lemma count_search_filtersNode (env : Env) (props : ListToolBarProps) :
  collect (divs_with (cls env props "search")) (filtersNode env props) = [].
Proof.
  unfold filtersNode. destruct (node_truthy (filter props)); [|reflexivity].
  cbn [collect flat_map]. now replace
    (divs_with (cls env props "search") (Div None (cls env props "filter")))
    with (@nil Tag) by (symmetry; other_class).
Qed.

Lemma count_search_left (env : Env) (props : ListToolBarProps) :
  count_search env props (leftTitleDom env props)
  = if negb (hasTitle_spec props) && search_resolved env props then 1 else 0.
Proof.
  unfold count_search at 1, count_div.
  rewrite collect_leftTitleDom; try reflexivity; try other_class.
  rewrite truthy_hasTitle. fold (search_resolved env props).
  destruct (negb (hasTitle_spec props) && search_resolved env props);
    [apply count_search_searchBox | reflexivity].
Qed.

Lemma count_search_right (env : Env) (props : ListToolBarProps) :
  count_search env props (rightTitleDom env props)
  = if hasTitle_spec props && search_resolved env props then 1 else 0.
Proof.
  unfold count_search at 1, count_div.
  rewrite collect_rightTitleDom; try reflexivity; try other_class.
  rewrite count_search_filtersNode, truthy_hasTitle.
  fold (search_resolved env props).
  destruct (truthy (hasRight env props)) eqn:Hr.
  - destruct (negb (multipleLine_ props)); simpl;
      (destruct (hasTitle_spec props && search_resolved env props);
       [apply count_search_searchBox | reflexivity]).
  - rewrite truthy_hasRight in Hr. unfold hasRight_spec in Hr.
    apply orb_false_iff in Hr as [Hr _]. apply orb_false_iff in Hr as [Hr _].
    apply orb_false_iff in Hr as [Hr _]. now rewrite Hr.
Qed.

Lemma count_search_titleNode (env : Env) (props : ListToolBarProps) :
  count_search env props (titleNode env props)
  = count_search env props (leftTitleDom env props)
    + count_search env props (rightTitleDom env props).
Proof.
  unfold count_search, count_div.
  rewrite collect_titleNode; try reflexivity; try other_class.
  apply length_app.
Qed.

Lemma count_search_tabBar (env : Env) (props : ListToolBarProps) :
  count_search env props (tabBar env props) = 0.
Proof.
  unfold count_search, count_div.
  rewrite collect_tabBar; try reflexivity; try other_class.
  rewrite count_search_filtersNode. now destruct (multipleLine_ props).
Qed.

(** When [hasTitle] fails, the [||] chain that computes it returns its last
    operand, the tooltip. *)
Lemma hasTitle_falsy (props : ListToolBarProps) :
  hasTitle_spec props = false ->
  hasTitle props = of_tooltip (tooltip props) /\ menu props = None.
Proof.
  unfold hasTitle_spec, hasTitle, menu_present, present. intros H.
  apply orb_false_iff in H as [H Htip]. apply orb_false_iff in H as [H Hsub].
  apply orb_false_iff in H as [Hmenu Htitle].
  destruct (menu props); [discriminate|]. split; [|reflexivity].
  unfold js_or; simpl. rewrite Htitle. simpl. now rewrite Hsub.
Qed.

(** The left region of a toolbar that has search and nothing to title it. *)
Lemma left_region_untitled_search (env : Env) (props : ListToolBarProps) :
  hasTitle_spec props = false ->
  search_resolved env props = true ->
  leftTitleDom env props
  = VElem (leftSpace env props) None
          [of_tooltip (tooltip props); undefined; searchBox env props].
Proof.
  intros Ht Hs. pose proof (hasTitle_falsy props Ht) as [Eh Em].
  pose proof (truthy_hasTitle props) as Tt. rewrite Ht in Tt.
  unfold search_resolved in Hs.
  unfold leftTitleDom, leftSpaceChildren, leftSpace.
  rewrite truthy_hasLeft. unfold hasLeft_spec, search_resolved.
  rewrite Ht, Hs, Tt, Em. cbn [negb andb]. rewrite orb_true_r.
  unfold js_and. rewrite Tt. cbn [negb andb orb truthy of_menu undefined
    node_truthy js_bool]. now rewrite Tt, Hs, Eh.
Qed.

Lemma is_element_searchNode (env : Env) (props : ListToolBarProps) :
  is_element (searchNode env props) = truthy (searchNode env props).
Proof.
  unfold searchNode. destruct (search_truthy (search props)); [|reflexivity].
  cbn [negb]. now destruct (search props) as [[]|].
Qed.

Lemma titleNode_some (env : Env) (props : ListToolBarProps) :
  hasLeft_spec env props || hasRight_spec env props = true ->
  titleNode env props
  = VElem (Div None (containerClassName env props)) None
      [leftTitleDom env props; rightTitleDom env props].
Proof.
  intros H. unfold titleNode. rewrite truthy_hasLeft, truthy_hasRight.
  now destruct (hasLeft_spec env props), (hasRight_spec env props).
Qed.

Lemma leftTitleDom_search (env : Env) (props : ListToolBarProps) :
  hasTitle_spec props = false ->
  search_resolved env props = true ->
  children_of (leftTitleDom env props)
  = [of_tooltip (tooltip props); undefined; searchBox env props].
Proof.
  intros Ht Hs. now rewrite left_region_untitled_search.
Qed.

(** The right region of a toolbar that has a title and search: the stack
    whose second child is the search box. *)
Lemma rightTitleDom_search (env : Env) (props : ListToolBarProps) :
  hasTitle_spec props = true ->
  search_resolved env props = true ->
  children_of (rightTitleDom env props)
  = [ if negb (multipleLine_ props) then filtersNode env props else null;
      searchBox env props;
      actionDom props;
      settingItems env props ].
Proof.
  intros Ht Hs. unfold rightTitleDom, rightSpaceChildren.
  rewrite truthy_hasRight, truthy_and, truthy_hasTitle.
  unfold hasRight_spec. unfold search_resolved in Hs |- *.
  now rewrite Ht, Hs.
Qed.



(** C3, as stated, fails: [{ subTitle: "All users", search: true }] has no
    title and no menu and its search resolves, yet the search box is in the
    right region and not in the left one. *)
Lemma search_left_without_title_and_menu_fails :
  present (title subtitled_search) = false
  /\ menu_present subtitled_search = false
  /\ search_resolved antd_env subtitled_search = true
  /\ count_search antd_env subtitled_search
       (leftTitleDom antd_env subtitled_search) = 0
  /\ count_search antd_env subtitled_search
       (rightTitleDom antd_env subtitled_search) = 1
  /\ ~ (forall env props,
          present (title props) = false ->
          menu_present props = false ->
          search_resolved env props = true ->
          count_search env props (leftTitleDom env props) = 1).
Proof.
  repeat (split; [reflexivity|]).
  intros H.
  specialize (H antd_env subtitled_search eq_refl eq_refl eq_refl).
  discriminate H.
Qed.

(** C3, amended. When title, subtitle, tooltip and menu are all absent and
    search is set, the search box is rendered in the left region: the left
    region is the horizontal stack whose only element is the search box. *)
Theorem search_left_when_untitled (env : Env) (props : ListToolBarProps) :
  present (title props) = false ->
  present (subTitle props) = false ->
  tooltip_truthy (tooltip props) = false ->
  menu_present props = false ->
  search_resolved env props = true ->
  exists children,
    leftTitleDom env props = VElem (leftSpace env props) None children
    /\ elements children = [searchBox env props]
    /\ count_search env props (leftTitleDom env props) = 1.
Proof.
  intros Htitle Hsub Htip Hmenu Hs.
  assert (Ht : hasTitle_spec props = false).
  { unfold hasTitle_spec. now rewrite Hmenu, Htitle, Hsub, Htip. }
  eexists. split; [now apply left_region_untitled_search|]. split.
  - unfold elements. cbn [List.filter].
    assert (E : is_element (of_tooltip (tooltip props)) = false).
    { destruct (tooltip props) as [[]|]; try reflexivity; discriminate. }
    now rewrite E.
  - now rewrite count_search_left, Ht, Hs.
Qed.

Lemma search_left_when_untitled_witness :
  exists children,
    leftTitleDom antd_env bare_search
    = VElem (leftSpace antd_env bare_search) None children
    /\ elements children = [searchBox antd_env bare_search]
    /\ count_search antd_env bare_search (leftTitleDom antd_env bare_search)
       = 1.
Proof.
  apply (search_left_when_untitled antd_env bare_search); reflexivity.
Defined.

(** ** The left region *)

Lemma elements_leftSpaceChildren (env : Env) (props : ListToolBarProps) :
  elements (leftSpaceChildren env props)
  = (if hasTitle_spec props && negb (menu_present props)
     then [titleBlock env props] else [])
    ++ match menu props with
       | Some m => [headerMenu env props m]
       | None => []
       end
    ++ (if negb (hasTitle_spec props) && search_resolved env props
        then [searchBox env props] else []).
Proof.
  unfold elements, leftSpaceChildren, search_resolved.
  rewrite truthy_and, truthy_js_bool, <- truthy_hasTitle, truthy_of_menu.
  assert (Hfirst :
    List.filter is_element
      [hasTitle props &&& js_bool (negb (menu_present props))
       &&& titleBlock env props]
    = if truthy (hasTitle props) && negb (menu_present props)
      then [titleBlock env props] else []).
  { unfold js_and at 1. rewrite truthy_and, truthy_js_bool.
    destruct (truthy (hasTitle props) && negb (menu_present props)) eqn:E;
      [reflexivity|].
    assert (F : truthy (hasTitle props
                        &&& js_bool (negb (menu_present props))) = false)
      by now rewrite truthy_and, truthy_js_bool.
    destruct (falsy_is_node _ F) as [n [-> Hn]].
    destruct n; try reflexivity; discriminate. }
  change (?a :: ?b :: ?c) with ([a] ++ [b] ++ c).
  rewrite !filter_app, Hfirst. f_equal. f_equal.
  - unfold menu_present. now destruct (menu props).
  - now destruct (negb (truthy (hasTitle props))
                  && truthy (searchNode env props)).
Qed.


(** One configuration for each row of the table. *)
Example left_region_placeholder :
  leftTitleDom antd_env null_setting
  = VElem (Div None "ant-pro-table-list-toolbar-left css-var") None [].
Proof. reflexivity. Qed.

Example left_region_title_only :
  leftTitleDom antd_env titled_search
  = VElem (Div None "ant-pro-table-list-toolbar-left css-var") None
      [VElem (Div None "ant-pro-table-list-toolbar-title css-var") None
         [VElem (LabelIconTip (TipNode NUndefined) (NStr "Users") NUndefined)
                None []]].
Proof. reflexivity. Qed.

Example left_region_stack :
  elements (leftSpaceChildren antd_env menu_search)
  = [headerMenu antd_env menu_search {| menu_props := [("type", "tab")] |}]
  /\ elements (leftSpaceChildren antd_env bare_search)
     = [searchBox antd_env bare_search].
Proof. split; reflexivity. Qed.

(** ** Where the filter area goes *)

Lemma count_filter_filtersNode (env : Env) (props : ListToolBarProps) :
  count_filter env props (filtersNode env props)
  = if present (filter props) then 1 else 0.
Proof.
  unfold count_filter, count_div, filtersNode, present.
  destruct (node_truthy (filter props)); [|reflexivity].
  cbn [collect flat_map divs_with]. now rewrite String.eqb_refl.
Qed.

Lemma collect_filter_searchBox (env : Env) (props : ListToolBarProps) :
  collect (divs_with (cls env props "filter")) (searchBox env props) = [].
Proof.
  unfold searchBox. cbn [collect flat_map].
  rewrite collect_div_searchNode.
  now replace
    (divs_with (cls env props "filter") (Div None (cls env props "search")))
    with (@nil Tag) by (symmetry; other_class).
Qed.

Lemma count_filter_right (env : Env) (props : ListToolBarProps) :
  count_filter env props (rightTitleDom env props)
  = if negb (multipleLine_ props) && present (filter props) then 1 else 0.
Proof.
  unfold count_filter at 1, count_div.
  rewrite collect_rightTitleDom; try reflexivity; try other_class.
  rewrite collect_filter_searchBox.
  destruct (truthy (hasRight env props)) eqn:Hr.
  - destruct (negb (multipleLine_ props)); simpl.
    + destruct (truthy (hasTitle props) && truthy (searchNode env props));
        rewrite app_nil_r; apply count_filter_filtersNode.
    + now destruct (truthy (hasTitle props) && truthy (searchNode env props)).
  - rewrite truthy_hasRight in Hr. unfold hasRight_spec in Hr.
    apply orb_false_iff in Hr as [Hr _]. apply orb_false_iff in Hr as [Hr _].
    apply orb_false_iff in Hr as [_ Hr]. now rewrite Hr.
Qed.

Lemma count_filter_tabBar (env : Env) (props : ListToolBarProps) :
  count_filter env props (tabBar env props)
  = if multipleLine_ props && present (filter props) then 1 else 0.
Proof.
  unfold count_filter at 1, count_div.
  rewrite collect_tabBar; try reflexivity; try other_class.
  destruct (multipleLine_ props); [|reflexivity].
  apply count_filter_filtersNode.
Qed.

Lemma tabBar_multipleLine (env : Env) (props : ListToolBarProps) :
  multipleLine_ props = true ->
  tabBar env props
  = VElem (Div None (prefixCls env props ++ "-extra-line")%string) None
      [match tab_items props with
       | [] => filtersNode env props
       | _ :: _ =>
           VTabs (tabs_activeKey props) (JS.mapi tab_item (tab_items props))
                 (tabs_onChange props) (filtersNode env props)
                 (JS.mapi tab_pane (tab_items props))
       end].
Proof.
  intros Hm. unfold tabBar, ListToolBarTabBar, tab_items, tabs_activeKey,
    tabs_onChange. rewrite Hm. simpl.
  destruct (tabs props) as [t|]; simpl; [|reflexivity].
  now destruct (items t) as [[|it its]|].
Qed.

Lemma right_region_some (env : Env) (props : ListToolBarProps) :
  hasRight_spec env props = true ->
  rightTitleDom env props
  = VElem (rightSpace env props) None (rightSpaceChildren env props).
Proof.
  intros Hr. unfold rightTitleDom. now rewrite truthy_hasRight, Hr.
Qed.


(** The second scenario of the specification: two tabs and a filter [F] on
    two lines give no title container and a secondary line whose tab strip
    carries [F] as trailing content. *)
Example filter_with_tabs :
  ListToolBar antd_env (filter_config (Some true) (Some two_tabs))
  = VElem (Div None "ant-pro-table-list-toolbar css-var") None
      [ null;
        VElem (Div None "ant-pro-table-list-toolbar-extra-line") None
          [VTabs None
             [ {| item_label := NStr "A";
                  item_source := {| tab_key := Some "a"; tab := NStr "A";
                                    tab_rest := [] |};
                  item_key := "a" |};
               {| item_label := NStr "B";
                  item_source := {| tab_key := Some "b"; tab := NStr "B";
                                    tab_rest := [] |};
                  item_key := "b" |} ]
             None
             (VElem (Div None "ant-pro-table-list-toolbar-filter css-var")
                    None [VNode filter_F])
             [ VElem (TabsTabPane {| tab_key := Some "a"; tab := NStr "A";
                                     tab_rest := [] |} (NStr "A"))
                     (Some "a") [];
               VElem (TabsTabPane {| tab_key := Some "b"; tab := NStr "B";
                                     tab_rest := [] |} (NStr "B"))
                     (Some "b") [] ]] ].
Proof. reflexivity. Qed.

Example filter_alone_on_second_line :
  tabBar antd_env (filter_config (Some true) None)
  = VElem (Div None "ant-pro-table-list-toolbar-extra-line") None
      [VElem (Div None "ant-pro-table-list-toolbar-filter css-var") None
             [VNode filter_F]].
Proof. reflexivity. Qed.

Example filter_on_one_line :
  tabBar antd_env (filter_config None (Some two_tabs)) = null
  /\ count_filter antd_env (filter_config None (Some two_tabs))
       (rightTitleDom antd_env (filter_config None (Some two_tabs))) = 1.
Proof. split; reflexivity. Qed.

(** The stack receives [hasTitle && ...] as it evaluates: when [hasTitle]
    fails that is the tooltip value itself, which is no element but, for the
    number [0], is still text. *)
Example left_stack_passes_falsy_tooltip :
  leftSpaceChildren antd_env zero_tooltip_search
  = [VNode (NNum 0); undefined; searchBox antd_env zero_tooltip_search].
Proof. reflexivity. Qed.

(** ** Submitting a search *)

Lemma search_handlers_searchNode (env : Env) (props : ListToolBarProps)
    (opts : SearchProps) :
  search_options (search props) = Some opts ->
  search_handlers (searchNode env props)
  = [{| top_onSearch := onSearch props; own_onSearch := sp_onSearch opts |}].
Proof.
  unfold search_options, searchNode, search_handlers.
  destruct (search props) as [n|p]; simpl.
  - destruct n as [| |[]| | | | |]; try discriminate.
    intros [= <-]. reflexivity.
  - intros [= <-]. reflexivity.
Qed.

Lemma search_options_resolved (env : Env) (props : ListToolBarProps)
    (opts : SearchProps) :
  search_options (search props) = Some opts ->
  search_resolved env props = true.
Proof.
  unfold search_resolved. rewrite truthy_searchNode. unfold search_options.
  destruct (search props) as [n|p]; simpl; [|reflexivity].
  destruct n as [| |[]| | | | |]; try discriminate. reflexivity.
Qed.

Lemma search_handlers_filtersNode (env : Env) (props : ListToolBarProps) :
  collect input_handler (filtersNode env props) = [].
Proof. unfold filtersNode. now destruct (node_truthy (filter props)). Qed.

(** The rendered toolbar has the search input's handler once when search is
    an options object or [true], wherever the search box went. *)
Lemma search_handlers_ListToolBar (env : Env) (props : ListToolBarProps)
    (opts : SearchProps) :
  search_options (search props) = Some opts ->
  search_handlers (ListToolBar env props)
  = [{| top_onSearch := onSearch props; own_onSearch := sp_onSearch opts |}].
Proof.
  intros Ho.
  pose proof (search_options_resolved env props Ho) as Hs.
  pose proof (search_handlers_searchNode env props Ho) as Hh.
  unfold search_resolved in Hs. unfold search_handlers in *.
  unfold ListToolBar. cbn [collect flat_map input_handler app].
  rewrite collect_titleNode, collect_leftTitleDom, collect_rightTitleDom,
    collect_tabBar; try reflexivity.
  rewrite search_handlers_filtersNode, Hs, !andb_true_r.
  assert (Hb : collect input_handler (searchBox env props)
               = collect input_handler (searchNode env props))
    by (unfold searchBox; simpl; now rewrite app_nil_r).
  rewrite Hb, Hh, app_nil_r.
  destruct (truthy (hasTitle props)) eqn:Ht; simpl.
  - assert (Hr : truthy (hasRight env props) = true).
    { unfold hasRight. now rewrite !truthy_or, truthy_and, Ht, Hs. }
    rewrite Hr. now destruct (negb (multipleLine_ props)),
                  (multipleLine_ props).
  - destruct (truthy (hasRight env props)), (negb (multipleLine_ props)),
      (multipleLine_ props); reflexivity.
Qed.

(** C6. With search given as an options object (or as [true], which has no
    callback of its own) and a top-level [onSearch], submitting a query in
    the rendered toolbar calls the top-level [onSearch] with the query and
    then the options' own [onSearch] with the same query (followed by the
    other arguments of the submit event), and calls nothing else. *)
Theorem search_submit_calls_both (env : Env) (props : ListToolBarProps)
    (opts : SearchProps) (top : Callback) (query : string) (more : list Arg)
    (t : Trace) :
  search_options (search props) = Some opts ->
  onSearch props = Some top ->
  submit (ListToolBar env props) (ArgStr query :: more) t
  = t ++ Call top [ArgStr query]
         :: match sp_onSearch opts with
            | Some own => [Call own (ArgStr query :: more)]
            | None => []
            end.
Proof.
  intros Ho Htop. unfold submit.
  rewrite (search_handlers_ListToolBar env props Ho), Htop.
  unfold fire_search, optional_call. simpl.
  destruct (sp_onSearch opts); [|reflexivity].
  now rewrite <- app_assoc.
Qed.

Lemma search_submit_calls_both_witness :
  submit (ListToolBar antd_env bare_search)
         [ArgStr "ada"; ArgOpaque "event"] []
  = [Call "top" [ArgStr "ada"];
     Call "own" [ArgStr "ada"; ArgOpaque "event"]].
Proof.
  apply (@search_submit_calls_both antd_env bare_search
           {| sp_style := None; sp_placeholder := None;
              sp_onSearch := Some "own"; sp_rest := [] |}
           "top" "ada" [ArgOpaque "event"] []); reflexivity.
Defined.

(** [search: true] with a top-level callback: one call. *)
Example search_true_submit :
  submit (ListToolBar antd_env titled_search) [ArgStr "ada"] []
  = [Call "top" [ArgStr "ada"]].
Proof. reflexivity. Qed.

(** ** A toolbar without input *)

(** C7. When every optional field is absent the composed output is empty:
    the title container is not created and there is no secondary line, so
    the toolbar's root wrapper, the one element that is always returned,
    has no rendered content. *)
Theorem no_input_no_output (env : Env) (props : ListToolBarProps) :
  all_absent props = true ->
  titleNode env props = null
  /\ tabBar env props = null
  /\ children_of (ListToolBar env props) = [null; null]
  /\ observably_empty env props = true.
Proof.
  unfold all_absent. intros H.
  repeat (apply andb_prop in H as [H ?]).
  repeat match goal with
         | E : negb _ = true |- _ => apply negb_true_iff in E
         end.
  assert (Hs : search_resolved env props = false)
    by (unfold search_resolved; now rewrite truthy_searchNode).
  assert (Hl : hasLeft_spec env props = false).
  { revert H. unfold hasLeft_spec, hasTitle_spec. rewrite Hs.
    destruct (menu_present props), (present (title props)),
      (present (subTitle props)), (tooltip_truthy (tooltip props));
      simpl; congruence. }
  assert (Hr : hasRight_spec env props = false).
  { unfold hasRight_spec.
    repeat match goal with E : _ = false |- _ => rewrite E end.
    now rewrite andb_false_r. }
  assert (Ht : titleNode env props = null)
    by (unfold titleNode; now rewrite truthy_hasLeft, truthy_hasRight, Hl, Hr).
  assert (Hb : tabBar env props = null).
  { unfold tabBar, ListToolBarTabBar.
    now replace (multipleLine_ props) with false. }
  unfold observably_empty, ListToolBar, children_of. rewrite Ht, Hb. auto.
Qed.

Lemma no_input_no_output_witness :
  titleNode antd_env no_props = null
  /\ tabBar antd_env no_props = null
  /\ children_of (ListToolBar antd_env no_props) = [null; null]
  /\ observably_empty antd_env no_props = true.
Proof. apply (no_input_no_output antd_env no_props). reflexivity. Defined.

(** ** Setting items *)



(** ** Keys of the action list *)

Lemma get_remove_other (k k' : string) (o : JS.Obj) :
  String.eqb k k' = false -> JS.get k (JS.remove k' o) = JS.get k o.
Proof.
  intros Hk. induction o as [|[k0 v] o IH]; simpl; [reflexivity|].
  destruct (String.eqb_spec k' k0) as [->|Hne].
  - now rewrite Hk.
  - simpl. now rewrite IH.
Qed.

Lemma get_remove_same (k : string) (o : JS.Obj) :
  JS.get k (JS.remove k o) = None.
Proof.
  induction o as [|[k0 v] o IH]; simpl; [reflexivity|].
  destruct (String.eqb k k0) eqn:E; simpl; [exact IH | now rewrite E].
Qed.

(** Spreading an object without property [k] leaves property [k] alone. *)
Lemma get_spread_absent (k : string) (a b : JS.Obj) :
  JS.get k b = None -> JS.get k (JS.spread a b) = JS.get k a.
Proof.
  unfold JS.spread. revert a.
  induction b as [|[k0 v] b IH]; intros a Hb; simpl in *; [reflexivity|].
  destruct (String.eqb k k0) eqn:E; [discriminate|].
  rewrite (IH _ Hb). unfold JS.set. simpl. rewrite E.
  now apply get_remove_other.
Qed.

(** [createElement] never leaves a [key] among the props. *)
Lemma createElement_props_no_key (type : string) (config : JS.Obj) :
  JS.get "key" (el_props (createElement type config)) = None.
Proof. apply get_remove_same. Qed.

(** Every entry of the rendered action list is keyed by its index; for an
    element this holds whatever key it came with. *)
Lemma action_item_key (action : Node) (index : nat) :
  (forall e, action = NElement e -> JS.get "key" (el_props e) = None) ->
  key_of (action_item action index) = Some (JS.string_of_index index).
Proof.
  intros Hwf. destruct action; try reflexivity.
  simpl. now rewrite get_spread_absent by (apply Hwf; reflexivity).
Qed.

(** C9, at a failing input.  The action [<Button key="save" />] comes out of
    [actionDom] with the key ["0"]: its own key is lost. *)
Theorem keyed_action_loses_key :
  el_key save_button = Some "save"
  /\ map key_of (children_of (actionDom keyed_action)) = [Some "0"].
Proof. split; reflexivity. Qed.

(** ** Settings that resolve to nothing *)

Lemma getSettingItem_falsy (s : SettingPropType) :
  falsy_setting s = true -> getSettingItem s = null.
Proof.
  destruct s as [n|s]; simpl; [|discriminate].
  intros Hn. apply negb_true_iff in Hn. rewrite Hn. now destruct n.
Qed.

Lemma setting_slots_falsy (env : Env) (props : ListToolBarProps)
    (l : list SettingPropType) (i : nat) :
  forallb falsy_setting l = true ->
  JS.mapi_from i (setting_slot env props) l
  = JS.mapi_from i (empty_slot env props) l.
Proof.
  revert i. induction l as [|s l IH]; intros i Hl; simpl in *; [reflexivity|].
  apply andb_prop in Hl as [Hs Hl].
  rewrite (IH _ Hl). unfold setting_slot, empty_slot.
  now rewrite (getSettingItem_falsy s Hs).
Qed.

(** C10. A non-empty settings list of falsy entries makes [hasRight] hold:
    the right region is rendered and ends with the settings stack, which
    has one setting-item slot with nothing in it per entry; when [hasLeft]
    fails the left region is the empty placeholder; and the title container
    is rendered around both, so the toolbar is not empty. *)
Theorem falsy_settings_still_render (env : Env) (props : ListToolBarProps)
    (l : list SettingPropType) :
  settings props = Some l ->
  l <> [] ->
  forallb falsy_setting l = true ->
  truthy (hasRight env props) = true
  /\ settingItems env props
     = VElem (settingSpace env props) None (JS.mapi (empty_slot env props) l)
  /\ rightTitleDom env props
     = VElem (rightSpace env props) None
         [ if negb (multipleLine_ props) then filtersNode env props else null;
           if hasTitle_spec props && search_resolved env props
           then searchBox env props else null;
           actionDom props;
           settingItems env props ]
  /\ (hasLeft_spec env props = false ->
      leftTitleDom env props = VElem (Div None (cls env props "left")) None [])
  /\ titleNode env props
     = VElem (Div None (containerClassName env props)) None
         [leftTitleDom env props; rightTitleDom env props]
  /\ observably_empty env props = false.
Proof.
  intros Hset Hne Hfalsy.
  assert (Hl : settings_ props = l) by (unfold settings_; now rewrite Hset).
  assert (Hr : hasRight_spec env props = true).
  { unfold hasRight_spec. rewrite Hl. destruct l; [contradiction|].
    now rewrite orb_true_r. }
  assert (Ht : titleNode env props
               = VElem (Div None (containerClassName env props)) None
                   [leftTitleDom env props; rightTitleDom env props]).
  { unfold titleNode. now rewrite truthy_hasRight, Hr. }
  split; [now rewrite truthy_hasRight|].
  split.
  { unfold settingItems, settingSpace. rewrite truthy_settings_length, Hl.
    destruct l; [contradiction|]. cbn [non_empty]. unfold JS.mapi.
    now rewrite setting_slots_falsy. }
  split.
  { rewrite right_region_some by exact Hr. unfold rightSpaceChildren.
    now rewrite truthy_and, truthy_hasTitle. }
  split.
  { intros Hleft. unfold leftTitleDom.
    now rewrite truthy_hasLeft, truthy_hasRight, Hleft, Hr. }
  split; [exact Ht|].
  unfold observably_empty, ListToolBar, children_of. now rewrite Ht.
Qed.

Lemma falsy_settings_still_render_witness :
  truthy (hasRight antd_env null_setting) = true
  /\ rightTitleDom antd_env null_setting
     = VElem (rightSpace antd_env null_setting) None
         [ null; null; null;
           VElem (settingSpace antd_env null_setting) None
             [VElem (Div None "ant-pro-table-list-toolbar-setting-item css-var")
                    (Some "0") [null]] ]
  /\ leftTitleDom antd_env null_setting
     = VElem (Div None "ant-pro-table-list-toolbar-left css-var") None []
  /\ observably_empty antd_env null_setting = false.
Proof.
  destruct (@falsy_settings_still_render antd_env null_setting
              [SettingNode NNull] eq_refl) as [Hr [_ [Hright [Hleft [_ Hout]]]]];
    [discriminate | reflexivity |].
  split; [exact Hr|]. split; [exact Hright|].
  split; [apply Hleft; reflexivity | exact Hout].
Defined.

(** * Further properties of the layout *)

(** ** When the title container and the toolbar are empty *)

Lemma search_resolved_truthy (env : Env) (props : ListToolBarProps) :
  search_resolved env props = search_truthy (search props).
Proof. apply truthy_searchNode. Qed.

Lemma left_or_right (env : Env) (props : ListToolBarProps) :
  hasLeft_spec env props || hasRight_spec env props = any_content props.
Proof.
  unfold hasLeft_spec, hasRight_spec, any_content, hasTitle_spec.
  rewrite search_resolved_truthy.
  destruct (menu_present props), (present (title props)),
    (present (subTitle props)), (tooltip_truthy (tooltip props)),
    (search_truthy (search props)), (multipleLine_ props),
    (present (filter props)), (non_empty (actions_ props)),
    (non_empty (settings_ props)); reflexivity.
Qed.

Lemma titleNode_shape (env : Env) (props : ListToolBarProps) :
  if any_content props
  then titleNode env props
       = VElem (Div None (containerClassName env props)) None
           [leftTitleDom env props; rightTitleDom env props]
  else titleNode env props = null.
Proof.
  rewrite <- (left_or_right env props). unfold titleNode.
  rewrite truthy_hasLeft, truthy_hasRight.
  now destruct (hasLeft_spec env props), (hasRight_spec env props).
Qed.

(** The title container exists exactly when some input brings content to
    it: a menu, title, subtitle or tooltip, a search, a filter in
    single-line mode, an action or a setting.  A filter in multi-line mode
    does not count: it goes to the secondary line. *)
Theorem title_container_iff_content (env : Env) (props : ListToolBarProps) :
  truthy (titleNode env props) = any_content props
  /\ (if any_content props
      then titleNode env props
           = VElem (Div None (containerClassName env props)) None
               [leftTitleDom env props; rightTitleDom env props]
      else titleNode env props = null).
Proof.
  pose proof (titleNode_shape env props) as Hshape.
  split; [|exact Hshape].
  destruct (any_content props); now rewrite Hshape.
Qed.

Lemma renders_nothing_tabBar (env : Env) (props : ListToolBarProps) :
  renders_nothing (tabBar env props) = negb (multipleLine_ props).
Proof.
  unfold tabBar, ListToolBarTabBar. now destruct (multipleLine_ props).
Qed.

(** The toolbar is observably empty exactly when every content field is
    absent and it is in single-line mode.  In multi-line mode the secondary
    line is always created, with or without tabs and filter. *)
Theorem toolbar_empty_iff_all_absent (env : Env) (props : ListToolBarProps) :
  observably_empty env props = all_absent props
  /\ (if multipleLine_ props
      then is_element (tabBar env props) = true
      else tabBar env props = null).
Proof.
  split.
  - unfold observably_empty, ListToolBar, children_of. cbn [forallb].
    rewrite renders_nothing_tabBar, andb_true_r.
    pose proof (titleNode_shape env props) as Hshape.
    unfold all_absent. revert Hshape. unfold any_content.
    destruct (hasTitle_spec props), (search_truthy (search props)),
      (multipleLine_ props), (present (filter props)),
      (non_empty (actions_ props)), (non_empty (settings_ props));
      cbn [orb andb negb]; intros ->; reflexivity.
  - unfold tabBar, ListToolBarTabBar. now destruct (multipleLine_ props).
Qed.

(** ** The shapes of the left region *)

Lemma hasTitle_with_menu (props : ListToolBarProps) (m : ListToolBarMenu) :
  menu props = Some m -> hasTitle props = VMenu m.
Proof. intros Hm. unfold hasTitle. now rewrite Hm. Qed.

Lemma leftTitleDom_shape (env : Env) (props : ListToolBarProps) :
  leftTitleDom env props
  = match menu props with
    | Some m =>
        VElem (leftSpace env props) None
          [js_bool false; headerMenu env props m; null]
    | None =>
        if hasTitle_spec props then
          VElem (Div None (cls env props "left")) None [titleBlock env props]
        else if search_truthy (search props) then
          VElem (leftSpace env props) None
            [of_tooltip (tooltip props); undefined; searchBox env props]
        else if hasRight_spec env props then
          VElem (Div None (cls env props "left")) None []
        else
          VElem (Div None (cls env props "left")) None [titleBlock env props]
    end.
Proof.
  destruct (menu props) as [m|] eqn:Hm.
  - pose proof (hasTitle_with_menu props Hm) as Ht.
    unfold leftTitleDom, leftSpaceChildren, leftSpace.
    rewrite truthy_hasLeft. unfold hasLeft_spec, menu_present.
    rewrite Hm, Ht, orb_true_r. reflexivity.
  - destruct (hasTitle_spec props) eqn:Ht.
    + unfold leftTitleDom.
      rewrite truthy_hasLeft, truthy_hasTitle, Hm, Ht.
      assert (Hl : hasLeft_spec env props = true).
      { revert Ht. unfold hasLeft_spec, hasTitle_spec, menu_present.
        rewrite Hm.
        destruct (present (title props)), (present (subTitle props)),
          (tooltip_truthy (tooltip props)); simpl; congruence. }
      now rewrite Hl.
    + destruct (search_truthy (search props)) eqn:Hs.
      * apply left_region_untitled_search; [exact Ht|].
        now rewrite search_resolved_truthy.
      * assert (Hl : hasLeft_spec env props = false).
        { revert Ht. unfold hasLeft_spec, hasTitle_spec.
          rewrite search_resolved_truthy, Hs.
          destruct (menu_present props), (present (title props)),
            (present (subTitle props)), (tooltip_truthy (tooltip props));
            simpl; congruence. }
        unfold leftTitleDom.
        rewrite truthy_hasLeft, truthy_hasRight, truthy_hasTitle,
          truthy_searchNode, Hl, Ht, Hs, Hm.
        now destruct (hasRight_spec env props).
Qed.

(** The left region has one of four shapes.  With a menu it is the stack
    that shows the menu alone: title, subtitle and tooltip are not shown
    beside a menu.  Without a menu it is the title block when [hasTitle]
    holds, the stack that shows the search box when search takes the place
    of a title, and otherwise the empty placeholder if there is a right
    region (and an unused title wrapper if there is none).  So the left
    region is always an element, and it shows at most one thing: the menu,
    the title block or the search box. *)
Theorem left_region_shapes (env : Env) (props : ListToolBarProps) :
  leftTitleDom env props
  = match menu props with
    | Some m =>
        VElem (leftSpace env props) None
          [js_bool false; headerMenu env props m; null]
    | None =>
        if hasTitle_spec props then
          VElem (Div None (cls env props "left")) None [titleBlock env props]
        else if search_truthy (search props) then
          VElem (leftSpace env props) None
            [of_tooltip (tooltip props); undefined; searchBox env props]
        else if hasRight_spec env props then
          VElem (Div None (cls env props "left")) None []
        else
          VElem (Div None (cls env props "left")) None [titleBlock env props]
    end
  /\ is_element (leftTitleDom env props) = true
  /\ List.length (elements (children_of (leftTitleDom env props))) <= 1.
Proof.
  split; [apply leftTitleDom_shape|].
  rewrite leftTitleDom_shape.
  destruct (menu props) as [m|]; [split; [reflexivity | apply Nat.le_refl]|].
  destruct (hasTitle_spec props) eqn:Ht;
    [split; [reflexivity | apply Nat.le_refl]|].
  destruct (search_truthy (search props)).
  - split; [reflexivity|]. cbn [children_of elements List.filter].
    assert (E : is_element (of_tooltip (tooltip props)) = false).
    { unfold hasTitle_spec in Ht. apply orb_false_iff in Ht as [_ Ht].
      destruct (tooltip props) as [[]|]; try reflexivity; discriminate. }
    rewrite E. apply Nat.le_refl.
  - destruct (hasRight_spec env props); split; cbn; auto.
Qed.

(** ** What is shown once, and what is dropped *)

Lemma collect_searchNode_static {A : Type} (f : Tag -> list A) (env : Env)
    (props : ListToolBarProps) :
  (forall p, f (InputSearch p) = []) ->
  collect f (searchNode env props) = [].
Proof.
  intros Hf. unfold searchNode.
  destruct (negb (search_truthy (search props))); [reflexivity|].
  destruct (search props) as [[]|]; simpl; rewrite ?Hf; reflexivity.
Qed.

Lemma count_title_titleBlock (env : Env) (props : ListToolBarProps) :
  count_title env props (titleBlock env props) = 1.
Proof.
  unfold count_title, count_div, titleBlock. cbn [collect flat_map divs_with].
  now rewrite String.eqb_refl.
Qed.

Lemma count_title_left (env : Env) (props : ListToolBarProps) :
  any_content props = true ->
  count_title env props (leftTitleDom env props)
  = if hasTitle_spec props && negb (menu_present props) then 1 else 0.
Proof.
  intros Hany. rewrite leftTitleDom_shape. unfold menu_present.
  assert (Hleft : divs_with (cls env props "title")
                    (Div None (cls env props "left")) = [])
    by other_class.
  assert (Hbox : collect (divs_with (cls env props "title"))
                   (searchBox env props) = []).
  { unfold searchBox. cbn [collect flat_map].
    rewrite collect_div_searchNode.
    now replace (divs_with (cls env props "title")
                   (Div None (cls env props "search")))
      with (@nil Tag) by (symmetry; other_class). }
  destruct (menu props) as [m|] eqn:Hm.
  - now rewrite andb_false_r.
  - rewrite andb_true_r. destruct (hasTitle_spec props) eqn:Ht.
    + unfold count_title, count_div. cbn [collect flat_map].
      rewrite Hleft, app_nil_r. apply count_title_titleBlock.
    + destruct (search_truthy (search props)) eqn:Hs.
      * unfold count_title, count_div. cbn [collect flat_map leftSpace].
        rewrite Hbox.
        now destruct (tooltip props) as [[]|].
      * assert (Hr : hasRight_spec env props = true).
        { rewrite <- (left_or_right env props) in Hany.
          unfold hasLeft_spec in Hany.
          rewrite search_resolved_truthy, Hs, andb_false_r, orb_false_r
            in Hany.
          revert Ht Hany. unfold hasTitle_spec.
          destruct (menu_present props), (present (title props)),
            (present (subTitle props)), (tooltip_truthy (tooltip props));
            simpl; congruence. }
        rewrite Hr. unfold count_title, count_div. cbn [collect flat_map].
        now rewrite Hleft.
Qed.

Lemma count_title_right (env : Env) (props : ListToolBarProps) :
  count_title env props (rightTitleDom env props) = 0.
Proof.
  unfold count_title, count_div.
  rewrite collect_rightTitleDom; try reflexivity; try other_class.
  assert (Hf : collect (divs_with (cls env props "title"))
                 (filtersNode env props) = []).
  { unfold filtersNode. destruct (node_truthy (filter props)); [|reflexivity].
    cbn [collect flat_map].
    now replace (divs_with (cls env props "title")
                   (Div None (cls env props "filter")))
      with (@nil Tag) by (symmetry; other_class). }
  assert (Hbox : collect (divs_with (cls env props "title"))
                   (searchBox env props) = []).
  { unfold searchBox. cbn [collect flat_map].
    rewrite collect_div_searchNode.
    now replace (divs_with (cls env props "title")
                   (Div None (cls env props "search")))
      with (@nil Tag) by (symmetry; other_class). }
  rewrite Hf, Hbox.
  now destruct (truthy (hasRight env props)), (negb (multipleLine_ props)),
    (truthy (hasTitle props) && truthy (searchNode env props)).
Qed.

Lemma count_title_titleNode (env : Env) (props : ListToolBarProps) :
  count_title env props (titleNode env props)
  = if hasTitle_spec props && negb (menu_present props) then 1 else 0.
Proof.
  pose proof (titleNode_shape env props) as Hshape.
  destruct (any_content props) eqn:Hany.
  - rewrite Hshape. unfold count_title at 1, count_div.
    cbn [collect flat_map].
    replace (divs_with (cls env props "title")
               (Div None (containerClassName env props)))
      with (@nil Tag) by (symmetry; other_class).
    rewrite app_nil_r. cbn [app]. rewrite length_app.
    fold (count_div (cls env props "title") (leftTitleDom env props)).
    fold (count_div (cls env props "title") (rightTitleDom env props)).
    fold (count_title env props (leftTitleDom env props)).
    fold (count_title env props (rightTitleDom env props)).
    rewrite count_title_right, Nat.add_0_r. now apply count_title_left.
  - rewrite Hshape.
    assert (Ht : hasTitle_spec props = false).
    { revert Hany. unfold any_content.
      now destruct (hasTitle_spec props). }
    now rewrite Ht.
Qed.

(** The title block is the [div] of class [`${prefixCls}-title ${hashId}`]
    around the [LabelIconTip] of the tooltip, title and subtitle.  When
    [hasTitle] holds and there is no menu, the title container is rendered
    with, as its left region, the wrapper that holds the title block and
    nothing else, and no other [div] of that class exists in it.
    Otherwise the title container holds no such [div]: a menu hides the
    title, subtitle and tooltip given with it. *)
Theorem title_block_shown_once (env : Env) (props : ListToolBarProps) :
  titleBlock env props
  = VElem (Div None (cls env props "title")) None
      [VElem (LabelIconTip (tooltip props) (title props) (subTitle props))
             None []]
  /\ if hasTitle_spec props && negb (menu_present props)
     then count_title env props (titleNode env props) = 1
          /\ titleNode env props
             = VElem (Div None (containerClassName env props)) None
                 [ VElem (Div None (cls env props "left")) None
                         [titleBlock env props];
                   rightTitleDom env props ]
     else count_title env props (titleNode env props) = 0.
Proof.
  split; [reflexivity|].
  rewrite count_title_titleNode.
  destruct (hasTitle_spec props) eqn:Ht; [|reflexivity].
  unfold menu_present. destruct (menu props) as [m|] eqn:Hm; [reflexivity|].
  split; [reflexivity|].
  pose proof (titleNode_shape env props) as Hshape.
  unfold any_content in Hshape. rewrite Ht in Hshape. cbn [orb] in Hshape.
  now rewrite Hshape, leftTitleDom_shape, Hm, Ht.
Qed.

Lemma header_menus_right (env : Env) (props : ListToolBarProps) :
  header_menus (rightTitleDom env props) = [].
Proof.
  unfold header_menus. rewrite collect_rightTitleDom; try reflexivity.
  assert (Hf : collect header_menu_of (filtersNode env props) = [])
    by (unfold filtersNode; now destruct (node_truthy (filter props))).
  assert (Hbox : collect header_menu_of (searchBox env props) = []).
  { unfold searchBox. cbn [collect flat_map header_menu_of app].
    now rewrite collect_searchNode_static. }
  rewrite Hf, Hbox.
  now destruct (truthy (hasRight env props)), (negb (multipleLine_ props)),
    (truthy (hasTitle props) && truthy (searchNode env props)).
Qed.

(** A menu that is configured is shown exactly once, in the title
    container; without a menu no [HeaderMenu] is created. *)
Theorem menu_shown_once (env : Env) (props : ListToolBarProps) :
  header_menus (titleNode env props)
  = match menu props with
    | Some m => [m]
    | None => []
    end
  /\ header_menus (tabBar env props) = [].
Proof.
  split.
  - pose proof (titleNode_shape env props) as Hshape.
    destruct (any_content props) eqn:Hany; rewrite Hshape.
    + unfold header_menus. cbn [collect flat_map header_menu_of app].
      fold (header_menus (rightTitleDom env props)).
      rewrite header_menus_right, !app_nil_r, leftTitleDom_shape.
      destruct (menu props) as [m|]; [reflexivity|].
      destruct (hasTitle_spec props); [reflexivity|].
      destruct (search_truthy (search props)).
      * cbn [collect flat_map header_menu_of leftSpace app searchBox].
        rewrite collect_searchNode_static by reflexivity.
        now destruct (tooltip props) as [[]|].
      * now destruct (hasRight_spec env props).
    + destruct (menu props) eqn:Hm; [|reflexivity].
      revert Hany. unfold any_content, hasTitle_spec, menu_present.
      now rewrite Hm.
  - unfold header_menus. rewrite collect_tabBar; try reflexivity.
    unfold filtersNode.
    now destruct (multipleLine_ props), (node_truthy (filter props)).
Qed.

(** ** The right region *)

Lemma is_element_filtersNode (env : Env) (props : ListToolBarProps) :
  is_element (filtersNode env props) = present (filter props).
Proof.
  unfold filtersNode, present. now destruct (node_truthy (filter props)).
Qed.

Lemma is_element_actionDom (props : ListToolBarProps) :
  is_element (actionDom props) = non_empty (actions_ props).
Proof. unfold actionDom. now destruct (actions_ props). Qed.

Lemma is_element_settingItems (env : Env) (props : ListToolBarProps) :
  is_element (settingItems env props) = non_empty (settings_ props).
Proof.
  unfold settingItems. rewrite truthy_settings_length.
  now destruct (settings_ props).
Qed.

(** The right region holds, in this order, the filter area (single-line
    mode only), the search box (only beside a title), the action list and
    the settings list, each only if it has content; and the region exists
    exactly when one of the four does, so it is never an empty stack. *)
Theorem right_region_elements (env : Env) (props : ListToolBarProps) :
  elements (rightSpaceChildren env props)
  = (if negb (multipleLine_ props) && present (filter props)
     then [filtersNode env props] else [])
    ++ (if hasTitle_spec props && search_truthy (search props)
        then [searchBox env props] else [])
    ++ (if non_empty (actions_ props) then [actionDom props] else [])
    ++ (if non_empty (settings_ props) then [settingItems env props] else [])
  /\ truthy (rightTitleDom env props)
     = non_empty (elements (rightSpaceChildren env props))
  /\ (if non_empty (elements (rightSpaceChildren env props))
      then rightTitleDom env props
           = VElem (rightSpace env props) None (rightSpaceChildren env props)
      else rightTitleDom env props = null).
Proof.
  assert (Hel :
    elements (rightSpaceChildren env props)
    = (if negb (multipleLine_ props) && present (filter props)
       then [filtersNode env props] else [])
      ++ (if hasTitle_spec props && search_truthy (search props)
          then [searchBox env props] else [])
      ++ (if non_empty (actions_ props) then [actionDom props] else [])
      ++ (if non_empty (settings_ props)
          then [settingItems env props] else [])).
  { unfold elements, rightSpaceChildren. cbn [List.filter].
    rewrite truthy_and, truthy_hasTitle, truthy_searchNode.
    rewrite is_element_actionDom, is_element_settingItems.
    pose proof (is_element_filtersNode env props) as Hf.
    destruct (multipleLine_ props); cbn [negb andb];
      [|rewrite Hf];
      destruct (present (filter props)),
        (hasTitle_spec props && search_truthy (search props)),
        (non_empty (actions_ props)), (non_empty (settings_ props));
      reflexivity. }
  assert (Hne : non_empty (elements (rightSpaceChildren env props))
                = hasRight_spec env props).
  { rewrite Hel. unfold hasRight_spec. rewrite search_resolved_truthy.
    destruct (negb (multipleLine_ props) && present (filter props)),
      (hasTitle_spec props && search_truthy (search props)),
      (non_empty (actions_ props)), (non_empty (settings_ props));
      reflexivity. }
  split; [exact Hel|]. rewrite Hne. unfold rightTitleDom.
  rewrite truthy_hasRight.
  destruct (hasRight_spec env props); split; reflexivity.
Qed.

(** ** The filter area is shown once *)

Lemma count_filter_left (env : Env) (props : ListToolBarProps) :
  count_filter env props (leftTitleDom env props) = 0.
Proof.
  unfold count_filter, count_div.
  rewrite collect_leftTitleDom; try reflexivity; try other_class.
  rewrite collect_filter_searchBox.
  now destruct (negb (truthy (hasTitle props))
                && truthy (searchNode env props)).
Qed.

Lemma count_filter_titleNode (env : Env) (props : ListToolBarProps) :
  count_filter env props (titleNode env props)
  = if negb (multipleLine_ props) && present (filter props) then 1 else 0.
Proof.
  unfold count_filter at 1, count_div.
  rewrite collect_titleNode; try reflexivity; try other_class.
  rewrite length_app.
  fold (count_div (cls env props "filter") (leftTitleDom env props)).
  fold (count_div (cls env props "filter") (rightTitleDom env props)).
  fold (count_filter env props (leftTitleDom env props)).
  fold (count_filter env props (rightTitleDom env props)).
  now rewrite count_filter_left, count_filter_right.
Qed.

(** The filter area is the [div] of class [`${prefixCls}-filter ${hashId}`]
    around the caller's filter, and [null] without a filter.  A filter that
    is present is shown in it exactly once in the toolbar: in single-line
    mode as the first child of the right region of the title container, in
    multi-line mode in the secondary line, beside the tab strip or alone;
    no other [div] of that class exists.  It is never dropped and never
    shown twice. *)
Theorem filter_shown_once (env : Env) (props : ListToolBarProps) :
  filtersNode env props
  = (if present (filter props)
     then VElem (Div None (cls env props "filter")) None
                [VNode (filter props)]
     else null)
  /\ count_filter env props (titleNode env props)
     + count_filter env props (tabBar env props)
     = (if present (filter props) then 1 else 0)
  /\ count_filter env props (titleNode env props)
     = (if negb (multipleLine_ props) && present (filter props)
        then 1 else 0)
  /\ if present (filter props) then
       if multipleLine_ props then
         tabBar env props
         = VElem (Div None (prefixCls env props ++ "-extra-line")%string) None
             [match tab_items props with
              | [] => filtersNode env props
              | _ :: _ =>
                  VTabs (tabs_activeKey props)
                        (JS.mapi tab_item (tab_items props))
                        (tabs_onChange props) (filtersNode env props)
                        (JS.mapi tab_pane (tab_items props))
              end]
       else
         titleNode env props
         = VElem (Div None (containerClassName env props)) None
             [ leftTitleDom env props;
               VElem (rightSpace env props) None
                     (filtersNode env props
                      :: tl (rightSpaceChildren env props)) ]
     else tabBar env props
          = (if multipleLine_ props
             then VElem (Div None (prefixCls env props ++ "-extra-line")%string)
                        None
                        [match tab_items props with
                         | [] => null
                         | _ :: _ =>
                             VTabs (tabs_activeKey props)
                                   (JS.mapi tab_item (tab_items props))
                                   (tabs_onChange props) null
                                   (JS.mapi tab_pane (tab_items props))
                         end]
             else null).
Proof.
  assert (Hnode : filtersNode env props
                  = if present (filter props)
                    then VElem (Div None (cls env props "filter")) None
                               [VNode (filter props)]
                    else null) by reflexivity.
  split; [exact Hnode|].
  rewrite count_filter_titleNode, count_filter_tabBar.
  split; [now destruct (multipleLine_ props), (present (filter props))|].
  split; [reflexivity|].
  destruct (present (filter props)) eqn:Hf.
  - destruct (multipleLine_ props) eqn:Hm.
    + now apply tabBar_multipleLine.
    + pose proof (titleNode_shape env props) as Hshape.
      unfold any_content in Hshape. rewrite Hm, Hf in Hshape.
      cbn [negb andb] in Hshape. rewrite !orb_true_r in Hshape.
      cbn [orb] in Hshape. rewrite Hshape. do 3 f_equal.
      rewrite right_region_some.
      * unfold rightSpaceChildren. now rewrite Hm.
      * unfold hasRight_spec. now rewrite Hm, Hf, orb_true_r.
  - destruct (multipleLine_ props) eqn:Hm.
    + rewrite (tabBar_multipleLine env props Hm).
      unfold filtersNode. unfold present in Hf. now rewrite Hf.
    + unfold tabBar, ListToolBarTabBar. now rewrite Hm.
Qed.

(** ** Search inputs and their callbacks *)

Lemma search_handlers_toolbar_is_node (env : Env) (props : ListToolBarProps) :
  search_handlers (ListToolBar env props)
  = search_handlers (searchNode env props).
Proof.
  unfold search_handlers, ListToolBar.
  cbn [collect flat_map input_handler app].
  rewrite collect_titleNode, collect_leftTitleDom, collect_rightTitleDom,
    collect_tabBar; try reflexivity.
  rewrite search_handlers_filtersNode.
  assert (Hb : collect input_handler (searchBox env props)
               = collect input_handler (searchNode env props))
    by (unfold searchBox; simpl; now rewrite app_nil_r).
  rewrite Hb, app_nil_r.
  assert (Hnull : truthy (searchNode env props) = false ->
                  collect input_handler (searchNode env props) = [])
    by apply collect_falsy.
  destruct (truthy (searchNode env props)) eqn:Hs.
  - rewrite !andb_true_r.
    destruct (truthy (hasTitle props)) eqn:Ht; simpl.
    + assert (Hr : truthy (hasRight env props) = true).
      { unfold hasRight. now rewrite !truthy_or, truthy_and, Ht, Hs. }
      rewrite Hr. now destruct (negb (multipleLine_ props)),
                    (multipleLine_ props).
    + destruct (truthy (hasRight env props)), (negb (multipleLine_ props)),
        (multipleLine_ props); now rewrite ?app_nil_r.
  - rewrite !andb_false_r, (Hnull eq_refl).
    now destruct (truthy (hasRight env props)), (negb (multipleLine_ props)),
      (multipleLine_ props).
Qed.

Lemma search_handlers_by_prop (env : Env) (props : ListToolBarProps) :
  search_handlers (ListToolBar env props)
  = match search props with
    | SearchOptions p =>
        [{| top_onSearch := onSearch props; own_onSearch := sp_onSearch p |}]
    | SearchNode n =>
        if node_truthy n && negb (isValidElement n)
        then [{| top_onSearch := onSearch props; own_onSearch := None |}]
        else []
    end.
Proof.
  rewrite search_handlers_toolbar_is_node.
  unfold search_handlers, searchNode.
  destruct (search props) as [n|p]; [|reflexivity].
  destruct n as [| |[]|z| |s| |]; try reflexivity; cbn [search_truthy].
  - now destruct (node_truthy (NNum z)).
  - now destruct (node_truthy (NStr s)).
Qed.

(** The toolbar creates a search input of its own, with the merged submit
    handler, exactly when [search] is truthy and is no ready-made element;
    a ready-made element is used as it is and gets no handler.  There is
    never more than one search input. *)
Theorem search_input_created (env : Env) (props : ListToolBarProps) :
  search_handlers (ListToolBar env props)
  = match search props with
    | SearchOptions p =>
        [{| top_onSearch := onSearch props; own_onSearch := sp_onSearch p |}]
    | SearchNode n =>
        if node_truthy n && negb (isValidElement n)
        then [{| top_onSearch := onSearch props; own_onSearch := None |}]
        else []
    end
  /\ List.length (search_handlers (ListToolBar env props))
     = (if search_truthy (search props)
           && negb (search_is_element (search props)) then 1 else 0).
Proof.
  split; [apply search_handlers_by_prop|].
  rewrite search_handlers_by_prop.
  destruct (search props) as [n|p]; [|reflexivity].
  cbn [search_truthy search_is_element].
  now destruct (node_truthy n && negb (isValidElement n)).
Qed.

(** With a ready-made search element, or without search, a submit reaches
    no callback through the toolbar: the top-level [onSearch] is not called
    even if it is supplied. *)
Theorem search_element_bypasses_onSearch (env : Env)
    (props : ListToolBarProps) (n : Node) (restParams : list Arg)
    (t : Trace) :
  search props = SearchNode n ->
  isValidElement n || negb (node_truthy n) = true ->
  searchNode env props = (if isValidElement n then VNode n else null)
  /\ submit (ListToolBar env props) restParams t = t.
Proof.
  intros Hs Hn. split.
  - unfold searchNode. rewrite Hs. cbn [search_truthy].
    destruct n; try discriminate; try reflexivity; simpl in Hn |- *;
      try (apply negb_true_iff in Hn; now rewrite Hn).
  - unfold submit. rewrite search_handlers_by_prop, Hs.
    destruct (node_truthy n), (isValidElement n); try discriminate;
      reflexivity.
Qed.

Lemma search_element_bypasses_onSearch_witness :
  searchNode antd_env element_search = VNode my_search
  /\ submit (ListToolBar antd_env element_search) [ArgStr "ada"] [] = [].
Proof.
  apply (@search_element_bypasses_onSearch antd_env element_search my_search
           [ArgStr "ada"] []); reflexivity.
Defined.

(** ** Keys by position *)

Lemma to_uint_not_Nil (n : nat) : Nat.to_uint n <> Decimal.Nil.
Proof.
  rewrite <- (DecimalNat.Unsigned.of_to n) at 1.
  rewrite DecimalNat.Unsigned.to_of. apply DecimalFacts.unorm_nonnil.
Qed.

Lemma string_of_index_inj (i j : nat) :
  JS.string_of_index i = JS.string_of_index j -> i = j.
Proof.
  unfold JS.string_of_index. intros H.
  apply DecimalNat.Unsigned.to_uint_inj.
  pose proof (NilZero.usu _ (to_uint_not_Nil i)) as Hi.
  pose proof (NilZero.usu _ (to_uint_not_Nil j)) as Hj.
  rewrite H in Hi. congruence.
Qed.

Lemma string_of_index_not_empty (i : nat) : JS.string_of_index i <> "".
Proof.
  unfold JS.string_of_index. intros H.
  pose proof (NilZero.usu _ (to_uint_not_Nil i)) as Hi.
  rewrite H in Hi. discriminate Hi.
Qed.

Lemma index_keys_NoDup (n : nat) : NoDup (index_keys n).
Proof.
  unfold index_keys. apply Finite.Injective_map_NoDup; [|apply seq_NoDup].
  intros i j [= H]. now apply string_of_index_inj.
Qed.

Lemma length_mapi_from {A B : Type} (f : A -> nat -> B) (l : list A)
    (i : nat) :
  List.length (JS.mapi_from i f l) = List.length l.
Proof.
  revert i. induction l as [|a l IH]; intros i; simpl; [reflexivity|].
  now rewrite IH.
Qed.

(** Siblings made by [map((x, index) => ...)] whose key is the index. *)
Lemma keys_mapi_from {A : Type} (f : A -> nat -> Value) (l : list A)
    (i : nat) :
  (forall a j, In a l -> key_of (f a j) = Some (JS.string_of_index j)) ->
  map key_of (JS.mapi_from i f l)
  = map (fun j => Some (JS.string_of_index j)) (seq i (List.length l)).
Proof.
  revert i. induction l as [|a l IH]; intros i Hk; simpl; [reflexivity|].
  rewrite Hk by now left. f_equal. apply IH.
  intros b j Hb. apply Hk. now right.
Qed.

(** ** The action list *)

Lemma get_None_not_In (k : string) (o : JS.Obj) :
  JS.get k o = None <-> ~ In k (map fst o).
Proof.
  induction o as [|[k0 v] o IH]; simpl; [tauto|].
  destruct (String.eqb_spec k k0) as [->|Hne].
  - split; [discriminate | intros H; exfalso; apply H; now left].
  - rewrite IH. split.
    + intros H [E|Hin]; [congruence | contradiction].
    + intros H Hin. apply H. now right.
Qed.

(** The action list has one entry per action, in order, and the entries
    are keyed ["0"], ["1"], ...: sibling keys never clash, whatever keys
    the actions came with. *)
Theorem action_list_keys (props : ListToolBarProps) :
  (forall e, In (NElement e) (actions_ props) ->
             ~ In "key" (map fst (el_props e))) ->
  List.length (children_of (actionDom props)) = List.length (actions_ props)
  /\ map key_of (children_of (actionDom props))
     = index_keys (List.length (actions_ props))
  /\ NoDup (map key_of (children_of (actionDom props))).
Proof.
  intros Hwf.
  assert (Hkeys : map key_of (children_of (actionDom props))
                  = index_keys (List.length (actions_ props))).
  { unfold actionDom. destruct (actions_ props) as [|a l] eqn:Ha;
      [reflexivity|].
    cbn [List.length Nat.ltb Nat.leb children_of]. unfold JS.mapi, index_keys.
    apply (keys_mapi_from action_item (a :: l) 0). intros b j Hb.
    apply action_item_key. intros e ->.
    apply get_None_not_In. now apply Hwf. }
  split; [|split; [exact Hkeys | rewrite Hkeys; apply index_keys_NoDup]].
  unfold actionDom. destruct (actions_ props) as [|a l]; [reflexivity|].
  cbn [List.length Nat.ltb Nat.leb children_of]. unfold JS.mapi.
  apply (length_mapi_from action_item (a :: l) 0).
Qed.

Lemma action_list_keys_witness :
  map key_of (children_of (actionDom keyed_action)) = index_keys 1
  /\ NoDup (map key_of (children_of (actionDom keyed_action))).
Proof.
  destruct (action_list_keys keyed_action) as [_ H]; [|exact H].
  intros e [[= <-]|[]]. simpl. intros [E|[]]. discriminate E.
Defined.

(** *** Cloning an action changes its key only *)

Lemma existsb_eqb_In (k : string) (ks : list string) :
  existsb (String.eqb k) ks = true <-> In k ks.
Proof.
  rewrite existsb_exists. split.
  - intros [x [Hx E]]. apply String.eqb_eq in E. now subst.
  - intros H. exists k. split; [exact H | apply String.eqb_refl].
Qed.

Lemma without_none (ks : list string) (o : JS.Obj) :
  (forall kv, In kv o -> ~ In (fst kv) ks) -> without ks o = o.
Proof.
  induction o as [|kv o IH]; intros H; simpl; [reflexivity|].
  destruct (existsb (String.eqb (fst kv)) ks) eqn:E.
  - apply existsb_eqb_In in E. exfalso. apply (H kv); [now left | exact E].
  - simpl. rewrite IH; [reflexivity|]. intros x Hx. apply H. now right.
Qed.

Lemma without_all (ks : list string) (o : JS.Obj) :
  (forall kv, In kv o -> In (fst kv) ks) -> without ks o = [].
Proof.
  induction o as [|kv o IH]; intros H; simpl; [reflexivity|].
  assert (E : existsb (String.eqb (fst kv)) ks = true)
    by (apply existsb_eqb_In, H; now left).
  rewrite E. simpl. apply IH. intros x Hx. apply H. now right.
Qed.

Lemma without_app (ks : list string) (a b : JS.Obj) :
  without ks (a ++ b) = without ks a ++ without ks b.
Proof. apply filter_app. Qed.

Lemma remove_without (k : string) (o : JS.Obj) :
  JS.remove k o = without [k] o.
Proof.
  induction o as [|[k0 v] o IH]; simpl; [reflexivity|].
  rewrite (String.eqb_sym k0 k), orb_false_r.
  destruct (String.eqb k k0); simpl; now rewrite IH.
Qed.

Lemma without_remove (k : string) (ks : list string) (o : JS.Obj) :
  without ks (JS.remove k o) = without (k :: ks) o.
Proof.
  induction o as [|[k0 v] o IH]; simpl; [reflexivity|].
  rewrite (String.eqb_sym k0 k).
  destruct (String.eqb k k0); simpl; [exact IH|].
  destruct (existsb (String.eqb k0) ks); simpl; now rewrite IH.
Qed.

(** Spreading an object whose names are distinct puts its properties,
    last first, before what is left of the target. *)
Lemma spread_NoDup (b a : JS.Obj) :
  NoDup (map fst b) -> JS.spread a b = rev b ++ without (map fst b) a.
Proof.
  unfold JS.spread. revert a.
  induction b as [|[k v] b IH]; intros a Hnd; simpl.
  - symmetry. apply without_none. intros kv _ [].
  - inversion Hnd as [|? ? Hk Hnd']; subst.
    rewrite (IH _ Hnd'). unfold JS.set. cbn [without List.filter fst].
    assert (E : existsb (String.eqb k) (map fst b) = false).
    { destruct (existsb (String.eqb k) (map fst b)) eqn:E; [|reflexivity].
      apply existsb_eqb_In in E. contradiction. }
    rewrite E. cbn [negb]. fold (without (map fst b) (JS.remove k a)).
    rewrite without_remove, <- app_assoc. reflexivity.
Qed.

(** An action that is an element is cloned with its index as key, and
    with the same type and the same props: the clone differs from the
    caller's element in its key only. *)
Theorem action_element_rekeyed_only (e : Element) (index : nat) :
  props_well_formed e ->
  action_item (NElement e) index
  = VNode (NElement {| el_type := el_type e;
                       el_key := Some (JS.string_of_index index);
                       el_props := el_props e |}).
Proof.
  intros [Hnd Hkey]. unfold action_item, cloneElement. do 2 f_equal.
  assert (Hconfig :
    JS.spread [("key", JS.string_of_index index)] (el_props e)
    = rev (el_props e) ++ [("key", JS.string_of_index index)]).
  { rewrite spread_NoDup by exact Hnd. f_equal.
    apply without_none. intros kv [<-|[]]. exact Hkey. }
  f_equal.
  - rewrite get_spread_absent by now apply get_None_not_In. reflexivity.
  - rewrite Hconfig, remove_without, without_app.
    rewrite (without_all ["key"] [("key", JS.string_of_index index)])
      by (intros kv [<-|[]]; now left).
    rewrite app_nil_r, without_none.
    + rewrite spread_NoDup.
      * rewrite rev_involutive, without_all; [apply app_nil_r|].
        intros kv Hin. rewrite map_rev. apply -> in_rev.
        now apply in_map.
      * rewrite map_rev. now apply NoDup_rev.
    + intros kv Hin [E|[]]. apply Hkey. rewrite E.
      apply in_rev in Hin. now apply (in_map fst) in Hin.
Qed.

Lemma action_element_rekeyed_only_witness :
  action_item (NElement save_button) 0
  = VNode (NElement {| el_type := "Button"; el_key := Some "0";
                       el_props := [("type", "primary")] |}).
Proof.
  apply (@action_element_rekeyed_only save_button 0). split.
  - repeat constructor. intros [].
  - intros [E|[]]. discriminate E.
Defined.

(** ** The settings list *)

(** The settings stack has one slot per setting, in order, keyed ["0"],
    ["1"], ...; sibling keys never clash. *)
Theorem setting_slots_keys (env : Env) (props : ListToolBarProps) :
  List.length (children_of (settingItems env props))
  = List.length (settings_ props)
  /\ map key_of (children_of (settingItems env props))
     = index_keys (List.length (settings_ props))
  /\ NoDup (map key_of (children_of (settingItems env props))).
Proof.
  assert (Hkeys : map key_of (children_of (settingItems env props))
                  = index_keys (List.length (settings_ props))).
  { unfold settingItems. rewrite truthy_settings_length.
    destruct (settings_ props) as [|s l]; [reflexivity|].
    cbn [non_empty children_of]. unfold JS.mapi, index_keys.
    now apply (keys_mapi_from (setting_slot env props) (s :: l) 0). }
  split; [|split; [exact Hkeys | rewrite Hkeys; apply index_keys_NoDup]].
  unfold settingItems. rewrite truthy_settings_length.
  destruct (settings_ props) as [|s l]; [reflexivity|].
  cbn [non_empty children_of]. unfold JS.mapi.
  apply (length_mapi_from (setting_slot env props) (s :: l) 0).
Qed.

Lemma click_getSettingItem (s : SettingPropType) :
  click_handlers (getSettingItem s) = wired s.
Proof.
  destruct s as [n|c]; simpl.
  - now destruct (isValidElement n), (node_truthy n).
  - now destruct (node_truthy (icon c) && tooltip_truthy (setting_tooltip c)).
Qed.

Lemma click_setting_slots (env : Env) (props : ListToolBarProps)
    (l : list SettingPropType) (i : nat) :
  flat_map (collect span_handler) (JS.mapi_from i (setting_slot env props) l)
  = flat_map wired l.
Proof.
  revert i. induction l as [|s l IH]; intros i; simpl; [reflexivity|].
  rewrite IH, app_nil_r. f_equal. apply click_getSettingItem.
Qed.

Lemma click_settingItems (env : Env) (props : ListToolBarProps) :
  click_handlers (settingItems env props) = flat_map wired (settings_ props).
Proof.
  unfold click_handlers, settingItems. rewrite truthy_settings_length.
  destruct (settings_ props) as [|s l]; [reflexivity|].
  cbn [non_empty collect span_handler app]. unfold JS.mapi.
  apply click_setting_slots.
Qed.

Lemma click_rightTitleDom (env : Env) (props : ListToolBarProps) :
  click_handlers (rightTitleDom env props) = flat_map wired (settings_ props).
Proof.
  unfold rightTitleDom. destruct (truthy (hasRight env props)) eqn:Hr.
  - unfold click_handlers, rightSpaceChildren.
    cbn [negb collect flat_map span_handler app].
    fold (click_handlers (settingItems env props)).
    rewrite click_settingItems, collect_actionDom by reflexivity.
    assert (Hf : collect span_handler (filtersNode env props) = [])
      by (unfold filtersNode; now destruct (node_truthy (filter props))).
    assert (Hbox : collect span_handler (searchBox env props) = []).
    { unfold searchBox. cbn [collect flat_map span_handler app].
      now rewrite collect_searchNode_static. }
    rewrite app_nil_r.
    destruct (negb (multipleLine_ props)),
      (truthy (hasTitle props &&& searchNode env props));
      now rewrite ?Hf, ?Hbox.
  - rewrite truthy_hasRight in Hr. unfold hasRight_spec in Hr.
    apply orb_false_iff in Hr as [_ Hr].
    now destruct (settings_ props).
Qed.

(** The toolbar wires a click handler for exactly the settings that are
    descriptors with both an icon and a tooltip, in their order.  A
    descriptor without tooltip is shown as its bare icon and its [onClick]
    is never attached. *)
Theorem settings_click_wiring (env : Env) (props : ListToolBarProps) :
  click_handlers (ListToolBar env props) = flat_map wired (settings_ props).
Proof.
  unfold click_handlers, ListToolBar. cbn [collect flat_map span_handler app].
  rewrite collect_tabBar by reflexivity.
  assert (Hf : collect span_handler (filtersNode env props) = [])
    by (unfold filtersNode; now destruct (node_truthy (filter props))).
  rewrite Hf. replace (if multipleLine_ props then [] else [])
    with (@nil ClickHandler) by now destruct (multipleLine_ props).
  rewrite !app_nil_r.
  assert (Hleft : collect span_handler (leftTitleDom env props) = []).
  { rewrite collect_leftTitleDom by reflexivity.
    unfold searchBox. cbn [collect flat_map span_handler app].
    rewrite collect_searchNode_static by reflexivity.
    now destruct (negb (truthy (hasTitle props))
                  && truthy (searchNode env props)). }
  unfold titleNode.
  destruct (negb (truthy (hasRight env props))
            && negb (truthy (hasLeft env props))) eqn:Hnone.
  - apply andb_prop in Hnone as [Hr _]. apply negb_true_iff in Hr.
    rewrite truthy_hasRight in Hr. unfold hasRight_spec in Hr.
    apply orb_false_iff in Hr as [_ Hr].
    now destruct (settings_ props).
  - cbn [collect flat_map divs_with span_handler app].
    rewrite Hleft, app_nil_r. apply click_rightTitleDom.
Qed.

(** Of three settings only the one with icon and tooltip can be clicked. *)
Example only_tooltipped_setting_clicks :
  click_handlers (ListToolBar antd_env three_settings)
  = [{| click_onClick := Some "pick"; click_key := Some "d" |}].
Proof. reflexivity. Qed.

(** ** Tab keys *)

Lemma tab_item_key_not_empty (item : TabPane) (index : nat) :
  tab_item_key item index <> "".
Proof.
  unfold tab_item_key. destruct (tab_key item) as [k|].
  - destruct (String.eqb_spec k ""); [apply string_of_index_not_empty|].
    assumption.
  - apply string_of_index_not_empty.
Qed.

Lemma tab_item_key_own (item : TabPane) (index : nat) :
  tab_item_key item index
  = match own_tab_key item with
    | Some k => k
    | None => JS.string_of_index index
    end.
Proof.
  unfold tab_item_key, own_tab_key. destruct (tab_key item) as [k|];
    [now destruct (String.eqb k "")|reflexivity].
Qed.

Lemma tab_keys_from (its : list TabPane) (i : nat) :
  map key_of (JS.mapi_from i tab_pane its)
  = map (fun it => Some (item_key it)) (JS.mapi_from i tab_item its)
  /\ Forall (fun it => item_key it <> "") (JS.mapi_from i tab_item its)
  /\ map item_source (JS.mapi_from i tab_item its) = its
  /\ map item_label (JS.mapi_from i tab_item its) = map tab_item_label its.
Proof.
  revert i. induction its as [|it its IH]; intros i; simpl.
  - repeat split; constructor.
  - destruct (IH (S i)) as [Hk [Hne [Hs Hl]]].
    rewrite Hk, Hs, Hl. repeat split.
    constructor; [apply tab_item_key_not_empty | exact Hne].
Qed.



Lemma tab_keys_own_from (its : list TabPane) (i : nat) :
  Forall (fun it => own_tab_key it <> None) its ->
  map (fun it => Some (item_key it)) (JS.mapi_from i tab_item its)
  = map own_tab_key its.
Proof.
  revert i. induction its as [|it its IH]; intros i Hall; simpl;
    [reflexivity|].
  inversion Hall as [|? ? Hit Hrest]; subst.
  rewrite (IH _ Hrest), tab_item_key_own.
  now destruct (own_tab_key it).
Qed.

(** When every tab has a non-empty key of its own, the strip uses exactly
    these keys: the position of a tab plays no part in its identity. *)
Theorem tab_own_keys_kept (its : list TabPane) :
  Forall (fun it => own_tab_key it <> None) its ->
  map (fun it => Some (item_key it)) (JS.mapi tab_item its)
  = map own_tab_key its.
Proof. apply tab_keys_own_from. Qed.

Lemma tab_own_keys_kept_witness :
  map (fun it => Some (item_key it)) (JS.mapi tab_item keyed_tabs)
  = [Some "a"; Some "b"].
Proof.
  apply (@tab_own_keys_kept keyed_tabs).
  repeat constructor; discriminate.
Defined.

Lemma tab_keys_positional_from (its : list TabPane) (i : nat) :
  Forall (fun it => own_tab_key it = None) its ->
  map item_key (JS.mapi_from i tab_item its)
  = map JS.string_of_index (seq i (List.length its)).
Proof.
  revert i. induction its as [|it its IH]; intros i Hall; simpl;
    [reflexivity|].
  inversion Hall as [|? ? Hit Hrest]; subst.
  now rewrite (IH _ Hrest), tab_item_key_own, Hit.
Qed.

(** When no tab has a usable key (none, or the empty string), the tabs are
    keyed by position, ["0"], ["1"], ..., and these keys are distinct. *)
Theorem tab_positional_keys (its : list TabPane) :
  Forall (fun it => own_tab_key it = None) its ->
  map item_key (JS.mapi tab_item its)
  = map JS.string_of_index (seq 0 (List.length its))
  /\ NoDup (map item_key (JS.mapi tab_item its)).
Proof.
  intros Hall. unfold JS.mapi.
  rewrite (tab_keys_positional_from 0 Hall). split; [reflexivity|].
  apply Finite.Injective_map_NoDup; [|apply seq_NoDup].
  intros i j. apply string_of_index_inj.
Qed.

Lemma tab_positional_keys_witness :
  map item_key (JS.mapi tab_item unkeyed_tabs) = ["0"; "1"; "2"]
  /\ NoDup (map item_key (JS.mapi tab_item unkeyed_tabs)).
Proof.
  apply (@tab_positional_keys unkeyed_tabs).
  repeat constructor.
Defined.

(** ** Submitting without a top-level callback *)

(** Without a top-level [onSearch], a submit in the toolbar's own search
    input calls the options' [onSearch] alone, with all the submit
    arguments, and calls nothing when the options have none either. *)
Theorem search_submit_without_top (env : Env) (props : ListToolBarProps)
    (opts : SearchProps) (restParams : list Arg) (t : Trace) :
  search props = SearchOptions opts ->
  onSearch props = None ->
  submit (ListToolBar env props) restParams t
  = match sp_onSearch opts with
    | Some own => t ++ [Call own restParams]
    | None => t
    end.
Proof.
  intros Hs Htop. unfold submit.
  rewrite search_handlers_by_prop, Hs, Htop. reflexivity.
Qed.

Lemma search_submit_without_top_witness :
  submit (ListToolBar antd_env options_only_search) [] []
  = [Call "own" []].
Proof.
  apply (@search_submit_without_top antd_env options_only_search
           {| sp_style := None; sp_placeholder := None;
              sp_onSearch := Some "own"; sp_rest := [] |} [] []);
    reflexivity.
Defined.
